(** * libHLC: module lifecycle and compilation pipeline (src/libhlc/hlc.cpp)

    A shallow embedding of the orchestration code of [hlc.cpp].  The LLVM
    framework the file drives (verifier, pass managers, target registry,
    linker, cloning) is not part of the repository: it is taken as an
    interface, [LLVM], and every function of [hlc.cpp] is written over it.

    Pointers are addresses into a store of live objects; [None] is
    [nullptr].  A function of the source becomes a state transformer that
    either returns, terminates the process ([exit], a failed [assert]) or
    has no defined behaviour (a null or dangling pointer is dereferenced). *)

From Stdlib Require Import ZArith String Ascii List Bool.
From stdpp Require Import base option gmap strings list.

Local Open Scope Z_scope.

(** ** Plain data of the source *)

(** [llvm::CodeGenOpt::Level]. *)
Inductive CodeGenOpt_Level : Type :=
| CodeGenOpt_None
| CodeGenOpt_Less
| CodeGenOpt_Default
| CodeGenOpt_Aggressive.

(** [CodeGenOpt::Level GetCodeGenOptLevel(int OptLevel)], lines 124-137. *)
Definition GetCodeGenOptLevel (OptLevel : Z) : CodeGenOpt_Level :=
  match OptLevel with
  | 1 => CodeGenOpt_Less
  | 2 => CodeGenOpt_Default
  | 3 => CodeGenOpt_Aggressive
  | _ => CodeGenOpt_None
  end.

(** [TargetMachine::CodeGenFileType], the two kinds the source asks for. *)
Inductive CodeGenFileType : Type :=
| CGFT_AssemblyFile
| CGFT_ObjectFile.

(** The inliner handed to a [PassManagerBuilder]: the three constructor calls
    that occur in the source. *)
Inductive InlinerPass : Type :=
| createFunctionInliningPass_default              (* createFunctionInliningPass() *)
| createFunctionInliningPass (OptLevel SizeLevel : Z)
| createAlwaysInlinerPass.

(** The fields of [llvm::PassManagerBuilder] that the source reads or
    writes. *)
Record PassManagerBuilder : Type := mkPassManagerBuilder {
  PMB_OptLevel : Z;
  PMB_SizeLevel : Z;
  PMB_Inliner : option InlinerPass;
  PMB_DisableUnitAtATime : bool;
  PMB_DisableUnrollLoops : bool;
  PMB_LoopVectorize : bool;
  PMB_SLPVectorize : bool;
  PMB_VerifyInput : bool
}.

(** The namespace-level switches of lines 55-61.  They are ordinary mutable
    globals with external linkage; nothing in [hlc.cpp] assigns them, so the
    embedding reads them from a record. *)
Record Globals : Type := mkGlobals {
  DisableInline : bool;
  UnitAtATime : bool;
  DisableLoopVectorization : bool;
  DisableSLPVectorization : bool;
  StripDebug : bool;
  DisableOptimizations : bool;
  DisableSimplifyLibCalls : bool
}.

(** Their initial values in the source. *)
Definition Globals_initial : Globals :=
  {| DisableInline := false;
     UnitAtATime := true;
     DisableLoopVectorization := false;
     DisableSLPVectorization := false;
     StripDebug := false;
     DisableOptimizations := false;
     DisableSimplifyLibCalls := false |}.

(** [static const std::string MArch = "amdgcn"], line 63. *)
Definition MArch : string := "amdgcn".

(** [Optimize] declares [bool OptLevelO1, OptLevelO2, OptLevelO3,
    StandardLinkOpts;] without initialisers (line 312) and assigns each of
    them on some paths only.  The value such a local holds when it is read
    without having been assigned is not determined by the arguments of the
    call; the embedding takes these four values as an explicit input. *)
Record Indeterminate : Type := mkIndeterminate {
  ind_OptLevelO1 : bool;
  ind_OptLevelO2 : bool;
  ind_OptLevelO3 : bool;
  ind_StandardLinkOpts : bool
}.

(** Addresses of heap objects. *)
Abbreviation addr := positive (only parsing).

(** [class ModuleRef]: one data member, [Module * M]. *)
Record ModuleRef : Type := mkModuleRef { M : option addr }.

(** ** The framework interface *)

(** What [hlc.cpp] uses of LLVM.  [IRModule] is [llvm::Module]; a triple and
    a data layout are carried by their string form. *)
Class LLVM : Type := {
  IRModule : Type;
  Target : Type;
  TargetMachine : Type;
  TargetOptions : Type;
  RelocModel : Type;
  CodeModel : Type;
  (* llvm/IR/Verifier.h: true means broken *)
  verifyModule : IRModule -> bool;
  verifyModule_message : IRModule -> string;
  (* llvm/IR/DebugInfo.h, llvm/IR/Module.h *)
  StripDebugInfo : IRModule -> IRModule;
  setTargetTriple : string -> IRModule -> IRModule;
  getTargetTriple : IRModule -> string;
  getDataLayout : IRModule -> string;
  setDataLayout : string -> IRModule -> IRModule;
  DataLayout_isDefault : string -> bool;
  Module_size : IRModule -> nat;
  Module_print : IRModule -> string;
  (* llvm/ADT/Triple.h: getArch is 0 for an unknown architecture *)
  Triple_normalize : string -> string;
  Triple_getArch : string -> Z;
  (* llvm/Support/TargetRegistry.h, llvm/Target/TargetMachine.h *)
  lookupTarget : string -> string -> Target + string;
  createTargetMachine :
    Target -> string -> string -> string -> TargetOptions ->
    RelocModel -> CodeModel -> CodeGenOpt_Level -> option TargetMachine;
  createDataLayout : TargetMachine -> string;
  addPassesToEmitFile : TargetMachine -> CodeGenFileType -> bool -> bool;
  (* llvm/CodeGen/CommandFlags.h *)
  TargetOptions_default : TargetOptions;
  InitTargetOptionsFromCodeGenFlags : TargetOptions;
  set_AsmVerbose : bool -> TargetOptions -> TargetOptions;
  getRelocModel : RelocModel;
  CMModel : CodeModel;
  setFunctionAttributes : string -> string -> IRModule -> IRModule;
  (* llvm/Transforms/IPO/PassManagerBuilder.h: the default-constructed
     builder, whose vectorisation fields follow the command line *)
  PassManagerBuilder_new : PassManagerBuilder;
  (* llvm/Transforms/Utils/Cloning.h, llvm/Linker/Linker.h: true means error *)
  CloneModule : IRModule -> IRModule;
  linkModules : IRModule -> IRModule -> bool * IRModule
}.

(** The entries the source puts into a pass manager.  What a populate call
    of the builder adds is determined by the builder's fields, so the entry
    records the builder. *)
Inductive TargetIRAnalysis `{LLVM} : Type :=
| TargetIRAnalysis_default
| getTargetIRAnalysis (TM : TargetMachine).

Inductive Pass `{LLVM} : Type :=
| createVerifierPass
| TargetLibraryInfoWrapperPass (triple : string) (allDisabled : bool)
| createTargetTransformInfoWrapperPass (TIRA : TargetIRAnalysis)
| populateFunctionPassManager (Builder : PassManagerBuilder)
| populateModulePassManager (Builder : PassManagerBuilder)
| populateLTOPassManager (Builder : PassManagerBuilder)
| EmitFilePasses (TM : TargetMachine) (FileType : CodeGenFileType) (Verify : bool).

(** Running pass managers is the framework's business too. *)
Class PassRunner `{LLVM} : Type := {
  (* legacy::PassManager::run on an IR pipeline *)
  PassManager_run : list Pass -> IRModule -> IRModule;
  (* legacy::FunctionPassManager *)
  FPM_doInitialization : list Pass -> IRModule -> IRModule;
  FPM_run : list Pass -> nat -> IRModule -> IRModule;
  FPM_doFinalization : list Pass -> IRModule -> IRModule;
  (* legacy::PassManager::run on a pipeline ending in the emit passes: the
     module after the run and the bytes written to the stream *)
  CodeGen_run : list Pass -> IRModule -> IRModule * string
}.

(** The front end: the context object and the two readers, from
    llvm/IR/LLVMContext.h, llvm/AsmParser/Parser.h and
    llvm/Bitcode/ReaderWriter.h.  The bitcode reader fails with the message
    of its error code. *)
Class Parser `{LLVM} : Type := {
  LLVMContext : Type;
  LLVMContext_new : LLVMContext;
  parseAssemblyString : string -> LLVMContext -> option IRModule;
  parseBitcodeFile : string -> LLVMContext -> IRModule + string;
  materializeAll : IRModule -> IRModule
}.

(** The process-wide calls [Initialize] and [Finalize] make into the
    framework, lines 154-214, by name. *)
Inductive RuntimeCall : Type :=
| PrintStackTraceOnErrorSignal
| EnablePrettyStackTrace
| InitializeAllTargets
| InitializeAllTargetMCs
| InitializeAllAsmPrinters
| InitializeAllAsmParsers
| initializeCore
| initializeScalarOpts
| initializeObjCARCOpts
| initializeVectorization
| initializeIPO
| initializeAnalysis
| initializeTransformUtils
| initializeInstCombine
| initializeInstrumentation
| initializeTarget
| initializeCodeGenPreparePass
| initializeAtomicExpandPass
| initializeRewriteSymbolsPass
| initializeWinEHPreparePass
| initializeDwarfEHPreparePass
| initializeSafeStackPass
| initializeSjLjEHPreparePass
| initializePreISelIntrinsicLoweringPass
| initializeCodeGen
| initializeLoopStrengthReducePass
| initializeLowerIntrinsicsPass
| initializeUnreachableBlockElimPass
| llvm_shutdown.

(** ** Program state and outcomes *)

Section Program.

Context `{Framework : LLVM} `{Runner : !PassRunner}.

(** Live [ModuleRef] objects, live [llvm::Module] objects, and what has been
    written to [errs()]. *)
Record State : Type := mkState {
  refs : gmap positive ModuleRef;
  mods : gmap positive IRModule;
  errs : string
}.

Inductive Outcome (A : Type) : Type :=
| Returns (a : A) (s : State)
| Exits (code : Z) (s : State)     (* exit(code) *)
| Aborts (s : State)               (* a failed assert *)
| Undefined.                       (* null or dangling pointer used *)

Arguments Returns {A} a s.
Arguments Exits {A} code s.
Arguments Aborts {A} s.
Arguments Undefined {A}.

Definition Prog (A : Type) : Type := State -> Outcome A.

Definition ret {A} (a : A) : Prog A := fun s => Returns a s.

Definition bind {A B} (p : Prog A) (k : A -> Prog B) : Prog B :=
  fun s =>
    match p s with
    | Returns a s' => k a s'
    | Exits c s' => Exits c s'
    | Aborts s' => Aborts s'
    | Undefined => Undefined
    end.

Notation "x <- p ;; k" := (bind p (fun x => k))
  (at level 100, p at next level, right associativity).
Notation "p ;;; k" := (bind p (fun _ => k))
  (at level 100, right associativity).

(** [errs() << s]. *)
Definition errs_write (msg : string) : Prog unit :=
  fun s => Returns tt {| refs := refs s; mods := mods s; errs := errs s +:+ msg |}.

(** [*p] for a [Module *]. *)
Definition deref (p : option addr) : Prog IRModule :=
  fun s =>
    match p with
    | None => Undefined
    | Some a =>
        match mods s !! a with
        | Some m => Returns m s
        | None => Undefined
        end
    end.

(** [*p = m] for a live module. *)
Definition assign (p : option addr) (m : IRModule) : Prog unit :=
  fun s =>
    match p with
    | None => Undefined
    | Some a =>
        match mods s !! a with
        | Some _ => Returns tt {| refs := refs s; mods := <[a := m]> (mods s); errs := errs s |}
        | None => Undefined
        end
    end.

(** A module object is created at an address that holds no live module. *)
Definition new_Module (m : IRModule) : Prog addr :=
  fun s =>
    let a := fresh (dom (mods s)) in
    Returns a {| refs := refs s; mods := <[a := m]> (mods s); errs := errs s |}.

(** [delete p] for a [Module *]: nothing for [nullptr]. *)
Definition delete_Module (p : option addr) : Prog unit :=
  fun s =>
    match p with
    | None => Returns tt s
    | Some a =>
        match mods s !! a with
        | Some _ => Returns tt {| refs := refs s; mods := delete a (mods s); errs := errs s |}
        | None => Undefined
        end
    end.

(** ** [ModuleRef], lines 65-91 *)

(** [*this] for a [ModuleRef *]. *)
Definition this_ModuleRef (this : addr) : Prog ModuleRef :=
  fun s =>
    match refs s !! this with
    | Some r => Returns r s
    | None => Undefined
    end.

(** [ModuleRef::operator bool () const]. *)
Definition ModuleRef_bool (this : addr) : Prog bool :=
  r <- this_ModuleRef this ;;
  ret (bool_decide (M r <> None)).

(** [Module * ModuleRef::getModule()]. *)
Definition ModuleRef_getModule (this : addr) : Prog (option addr) :=
  r <- this_ModuleRef this ;;
  ret (M r).

(** [void ModuleRef::destroy()]: [delete M; M = nullptr;]. *)
Definition ModuleRef_destroy (this : addr) : Prog unit :=
  r <- this_ModuleRef this ;;
  delete_Module (M r) ;;;
  fun s => Returns tt {| refs := <[this := mkModuleRef None]> (refs s);
                         mods := mods s; errs := errs s |}.

(** [std::string ModuleRef::to_string()]. *)
Definition ModuleRef_to_string (this : addr) : Prog string :=
  r <- this_ModuleRef this ;;
  m <- deref (M r) ;;
  ret (Module_print m).

(** [delete M] for a [ModuleRef *]. *)
Definition delete_ModuleRef (h : addr) : Prog unit :=
  fun s =>
    match refs s !! h with
    | Some _ => Returns tt {| refs := delete h (refs s); mods := mods s; errs := errs s |}
    | None => Undefined
    end.

(** [void HLC_ModuleDestroy(ModuleRef *M)], lines 575-579. *)
Definition HLC_ModuleDestroy (Mh : addr) : Prog unit :=
  ModuleRef_destroy Mh ;;;
  delete_ModuleRef Mh.

(** ** The optimisation pipeline, lines 218-423 *)

Variable G : Globals.

(** The builder that [AddOptimizationPasses] configures before the two
    populate calls, lines 241-269.  [OptLevel] and [SizeLevel] are
    [unsigned] in the source; the callers pass the literals 0 to 3. *)
Definition AddOptimizationPasses_Builder (OptLevel SizeLevel : Z) : PassManagerBuilder :=
  let Builder := PassManagerBuilder_new in
  {| PMB_OptLevel := OptLevel;
     PMB_SizeLevel := SizeLevel;
     PMB_Inliner :=
       if DisableInline G then PMB_Inliner Builder
       else if 1 <? OptLevel then Some (createFunctionInliningPass OptLevel SizeLevel)
       else Some createAlwaysInlinerPass;
     PMB_DisableUnitAtATime := negb (UnitAtATime G);
     PMB_DisableUnrollLoops := OptLevel =? 0;
     PMB_LoopVectorize :=
       if DisableLoopVectorization G then false
       else if negb (PMB_LoopVectorize Builder) then (1 <? OptLevel) && (SizeLevel <? 2)
       else PMB_LoopVectorize Builder;
     PMB_SLPVectorize :=
       if DisableSLPVectorization G then false
       else (1 <? OptLevel) && (SizeLevel <? 2);
     PMB_VerifyInput := PMB_VerifyInput Builder |}.

(** [AddOptimizationPasses(MPM, FPM, OptLevel, SizeLevel)], lines 235-273:
    the two pass managers after the call. *)
Definition AddOptimizationPasses (MPM FPM : list Pass) (OptLevel SizeLevel : Z)
  : list Pass * list Pass :=
  let FPM1 := FPM ++ [createVerifierPass] in
  let Builder := AddOptimizationPasses_Builder OptLevel SizeLevel in
  (MPM ++ [populateModulePassManager Builder],
   FPM1 ++ [populateFunctionPassManager Builder]).

(** The builder of [AddStandardLinkPasses], lines 277-283. *)
Definition AddStandardLinkPasses_Builder : PassManagerBuilder :=
  let Builder := PassManagerBuilder_new in
  {| PMB_OptLevel := if DisableOptimizations G then 0 else PMB_OptLevel Builder;
     PMB_SizeLevel := PMB_SizeLevel Builder;
     PMB_Inliner :=
       if negb (DisableInline G) then Some createFunctionInliningPass_default
       else PMB_Inliner Builder;
     PMB_DisableUnitAtATime := PMB_DisableUnitAtATime Builder;
     PMB_DisableUnrollLoops := PMB_DisableUnrollLoops Builder;
     PMB_LoopVectorize := PMB_LoopVectorize Builder;
     PMB_SLPVectorize := PMB_SLPVectorize Builder;
     PMB_VerifyInput := true |}.

(** [AddStandardLinkPasses(PM)], lines 275-285. *)
Definition AddStandardLinkPasses (PM : list Pass) : list Pass :=
  PM ++ [populateLTOPassManager AddStandardLinkPasses_Builder].

(** [GetTargetMachine], lines 288-307. *)
Definition GetTargetMachine (TheTriple CPUStr FeaturesStr : string)
    (Options : TargetOptions) (OptLevel : Z) : option TargetMachine :=
  match lookupTarget MArch TheTriple with
  | inr _ => None
  | inl TheTarget =>
      createTargetMachine TheTarget TheTriple CPUStr FeaturesStr Options
        getRelocModel CMModel (GetCodeGenOptLevel OptLevel)
  end.

(** The four flags of [Optimize] after lines 312-331: each is [true] where
    the switch or the [if] assigns it and otherwise still holds the value
    it had at its declaration. *)
Definition Optimize_OptLevelO1 (u : Indeterminate) (OptLevel : Z) : bool :=
  if OptLevel =? 1 then true else ind_OptLevelO1 u.
Definition Optimize_OptLevelO2 (u : Indeterminate) (OptLevel : Z) : bool :=
  if OptLevel =? 2 then true else ind_OptLevelO2 u.
Definition Optimize_OptLevelO3 (u : Indeterminate) (OptLevel : Z) : bool :=
  if OptLevel =? 3 then true else ind_OptLevelO3 u.
Definition Optimize_StandardLinkOpts (u : Indeterminate) (OptLevel : Z) : bool :=
  if 0 <? OptLevel then true else ind_StandardLinkOpts u.

Definition TargetIRAnalysis_of (TM : option TargetMachine) : TargetIRAnalysis :=
  match TM with
  | Some T => getTargetIRAnalysis T
  | None => TargetIRAnalysis_default
  end.

(** The pass managers [Passes] and [*FPasses] that [Optimize] has built when
    it reaches line 410.  [FPasses] is only dereferenced under one of the
    three level flags, and the same flags made it non-null at line 392. *)
Definition Optimize_Passes (u : Indeterminate) (ModuleTriple : string)
    (TM : option TargetMachine) (OptLevel SizeLevel Verify : Z)
  : list Pass * list Pass :=
  let OptLevelO1 := Optimize_OptLevelO1 u OptLevel in
  let OptLevelO2 := Optimize_OptLevelO2 u OptLevel in
  let OptLevelO3 := Optimize_OptLevelO3 u OptLevel in
  let StandardLinkOpts := Optimize_StandardLinkOpts u OptLevel in
  let Passes := [TargetLibraryInfoWrapperPass ModuleTriple true;
                 createTargetTransformInfoWrapperPass (TargetIRAnalysis_of TM)] in
  let FPasses := [createTargetTransformInfoWrapperPass (TargetIRAnalysis_of TM)] in
  let Passes := if StandardLinkOpts then AddStandardLinkPasses Passes else Passes in
  let PF := (Passes, FPasses) in
  let PF := if OptLevelO1 then AddOptimizationPasses (fst PF) (snd PF) 1 0 else PF in
  let PF := if OptLevelO2 then AddOptimizationPasses (fst PF) (snd PF) 2 0 else PF in
  let PF := if OptLevelO3 then AddOptimizationPasses (fst PF) (snd PF) 3 0 else PF in
  PF.

(** Lines 412-415: set-up, one run per function of the module in order,
    tear-down. *)
Definition FPasses_run_all (FPasses : list Pass) (m : IRModule) : IRModule :=
  let m1 := FPM_doInitialization FPasses m in
  let m2 := fold_left (fun acc F => FPM_run FPasses F acc)
              (seq 0 (Module_size m1)) m1 in
  FPM_doFinalization FPasses m2.

(** Lines 347-422 on the value of [*M], once the module has passed the
    verifier. *)
Definition Optimize_verified (u : Indeterminate) (m : IRModule)
    (OptLevel SizeLevel Verify : Z) : IRModule :=
  let m := setTargetTriple (Triple_normalize "amdgcn--amdhsa") m in
  let ModuleTriple := getTargetTriple m in
  let CPUStr := "fiji" in
  let FeaturesStr := "" in
  let Options := TargetOptions_default in
  let TM :=
    if Triple_getArch ModuleTriple =? 0 then None
    else GetTargetMachine ModuleTriple CPUStr FeaturesStr Options OptLevel in
  let m := setFunctionAttributes CPUStr FeaturesStr m in
  let m := if DataLayout_isDefault (getDataLayout m) then setDataLayout "" m else m in
  let PF := Optimize_Passes u ModuleTriple TM OptLevel SizeLevel Verify in
  let m :=
    if Optimize_OptLevelO1 u OptLevel || Optimize_OptLevelO2 u OptLevel
       || Optimize_OptLevelO3 u OptLevel
    then FPasses_run_all (snd PF) m else m in
  PassManager_run (fst PF ++ [createVerifierPass]) m.

Definition newline : string := String (ascii_of_nat 10) "".

(** [exit(code)]. *)
Definition exit {A} (code : Z) : Prog A := fun s => Exits code s.

(** [void Optimize(llvm::Module * M, int OptLevel, int SizeLevel, int Verify)],
    lines 309-423. *)
Definition Optimize (u : Indeterminate) (Mp : option addr)
    (OptLevel SizeLevel Verify : Z) : Prog unit :=
  m0 <- deref Mp ;;
  let m1 := if StripDebug G then StripDebugInfo m0 else m0 in
  assign Mp m1 ;;;
  if verifyModule m1 then
    errs_write (verifyModule_message m1) ;;;
    errs_write ("error: input module is broken!" +:+ newline) ;;;
    exit 1
  else
    assign Mp (Optimize_verified u m1 OptLevel SizeLevel Verify).

(** [int HLC_ModuleOptimize(ModuleRef *M, int OptLevel, int SizeLevel, int Verify)],
    lines 581-588. *)
Definition HLC_ModuleOptimize (u : Indeterminate) (Mh : addr)
    (OptLevel SizeLevel Verify : Z) : Prog Z :=
  if (OptLevel <? 0) && (3 <? OptLevel) then ret 0
  else if (SizeLevel <? 0) && (2 <? SizeLevel) then ret 0
  else
    mref <- ModuleRef_getModule Mh ;;
    Optimize u mref OptLevel SizeLevel Verify ;;;
    ret 1.

(** ** Code generation, lines 430-526 *)

(** The level switch of [CompileModule], lines 460-475: [OLvl] starts as
    [Default] and the switch has no default branch. *)
Definition CompileModule_OLvl (OptLevel : Z) : CodeGenOpt_Level :=
  match OptLevel with
  | 0 => CodeGenOpt_None
  | 1 => CodeGenOpt_Less
  | 2 => CodeGenOpt_Default
  | 3 => CodeGenOpt_Aggressive
  | _ => CodeGenOpt_Default
  end.

(** [int CompileModule(std::unique_ptr<Module> mod, raw_string_ostream &os,
    bool emitBRIG, int OptLevel)], lines 436-526.  The result pairs the
    returned status with what has been written to [os].  [mod] owns the
    module: it is released when the call returns.  The [assert] of line
    485 is taken as compiled in.  The assignment to [Options.FloatABIType]
    at line 489 changes a local that is not read again. *)
Definition CompileModule (mod_ : addr) (emitBRIG : bool) (OptLevel : Z)
  : Prog (Z * string) :=
  let TheTriple := Triple_normalize "amdgcn--amdhsa" in
  match lookupTarget MArch TheTriple with
  | inr Error_ =>
      errs_write Error_ ;;;
      delete_Module (Some mod_) ;;;
      ret (0, "")
  | inl TheTarget =>
      let CPUStr := "fiji" in
      let FeaturesStr := "+promote-alloca,+fp64-denormals,+flat-for-global," in
      let OLvl := CompileModule_OLvl OptLevel in
      let Options := set_AsmVerbose true InitTargetOptionsFromCodeGenFlags in
      match createTargetMachine TheTarget TheTriple CPUStr FeaturesStr Options
              getRelocModel CMModel OLvl with
      | None => fun s => Aborts s
      | Some Target_ =>
          m <- deref (Some mod_) ;;
          let PM := [TargetLibraryInfoWrapperPass (getTargetTriple m) true] in
          let m := setDataLayout (createDataLayout Target_) m in
          let m := setFunctionAttributes CPUStr FeaturesStr m in
          assign (Some mod_) m ;;;
          let FileType := if emitBRIG then CGFT_ObjectFile else CGFT_AssemblyFile in
          let Verify := true in
          if addPassesToEmitFile Target_ FileType Verify then
            errs_write "target does not support generation of this" ;;;
            errs_write (" file type!" +:+ newline) ;;;
            delete_Module (Some mod_) ;;;
            ret (1, "")
          else
            let r := CodeGen_run (PM ++ [EmitFilePasses Target_ FileType Verify]) m in
            assign (Some mod_) (fst r) ;;;
            delete_Module (Some mod_) ;;;
            ret (0, snd r)
      end
  end.

(** ** The C boundary, lines 532-649 *)

(** [std::string::c_str] read as a C string: the characters before the
    first NUL. *)
Fixpoint c_str (s : string) : string :=
  match s with
  | EmptyString => EmptyString
  | String c r => if Ascii.eqb c zero then EmptyString else String c (c_str r)
  end.

(** Whether a NUL occurs among the characters. *)
Fixpoint has_NUL (s : string) : bool :=
  match s with
  | EmptyString => false
  | String c r => Ascii.eqb c zero || has_NUL r
  end.

(** [char* HLC_CreateString(const char *str)]: [strdup]. *)
Definition HLC_CreateString (str : string) : string := str.

(** [void HLC_ModulePrint(ModuleRef *M, char **output)]: what [*output]
    points to afterwards. *)
Definition HLC_ModulePrint (Mh : addr) : Prog string :=
  text <- ModuleRef_to_string Mh ;;
  ret (HLC_CreateString (c_str text)).

(** [llvm::CloneModule(ref)] into a fresh [std::unique_ptr<Module>]. *)
Definition CloneModule_new (ref : option addr) : Prog addr :=
  m <- deref ref ;;
  new_Module (CloneModule m).

(** [llvm::Linker::linkModules(Dest, std::move(Src), 0)]: [Dest] is
    modified in place, the source module is consumed. *)
Definition Linker_linkModules (Dest : option addr) (Src : addr) : Prog bool :=
  d <- deref Dest ;;
  s <- deref (Some Src) ;;
  assign Dest (snd (linkModules d s)) ;;;
  delete_Module (Some Src) ;;;
  ret (fst (linkModules d s)).

(** [int HLC_ModuleLinkIn(ModuleRef * Dst, ModuleRef * Src)], lines 591-606. *)
Definition HLC_ModuleLinkIn (Dst Src : addr) : Prog Z :=
  ref <- ModuleRef_getModule Src ;;
  sM <- CloneModule_new ref ;;
  d <- ModuleRef_getModule Dst ;;
  dm <- deref d ;;
  if verifyModule dm then
    delete_Module (Some sM) ;;; ret 0
  else
    s <- ModuleRef_getModule Src ;;
    sm <- deref s ;;
    if verifyModule sm then
      delete_Module (Some sM) ;;; ret 0
    else
      status <- Linker_linkModules d sM ;;
      ret (if status then 0 else 1).

(** [int HLC_ModuleEmitHSAIL(ModuleRef *M, int OptLevel, char **output)],
    lines 609-624: the returned value and what [*output] has been set to, if
    it has been set. *)
Definition HLC_ModuleEmitHSAIL (Mh : addr) (OptLevel : Z) : Prog (Z * option string) :=
  ref <- ModuleRef_getModule Mh ;;
  sM <- CloneModule_new ref ;;
  if (OptLevel <? 0) && (3 <? OptLevel) then
    delete_Module (Some sM) ;;; ret (0, None)
  else
    r <- CompileModule sM false OptLevel ;;
    if negb (fst r =? 0) then ret (0, None)
    else ret (1, Some (HLC_CreateString (c_str (snd r)))).

(** [size_t HLC_ModuleEmitBRIG(ModuleRef *M, int OptLevel, char **output)],
    lines 626-642: the returned size and the [buf.size()] bytes [*output]
    has been set to, if it has been set. *)
Definition HLC_ModuleEmitBRIG (Mh : addr) (OptLevel : Z) : Prog (Z * option string) :=
  ref <- ModuleRef_getModule Mh ;;
  sM <- CloneModule_new ref ;;
  if (OptLevel <? 0) && (3 <? OptLevel) then
    delete_Module (Some sM) ;;; ret (0, None)
  else
    r <- CompileModule sM true OptLevel ;;
    if negb (fst r =? 0) then ret (0, None)
    else ret (Z.of_nat (String.length (snd r)), Some (snd r)).

(** [HLC_ModuleOptimize] with its two range tests left out: lines 585-587
    alone. *)
Definition HLC_ModuleOptimize_unchecked (u : Indeterminate) (Mh : addr)
    (OptLevel SizeLevel Verify : Z) : Prog Z :=
  mref <- ModuleRef_getModule Mh ;;
  Optimize u mref OptLevel SizeLevel Verify ;;;
  ret 1.

(** ** Start-up, shut-down and the readers, lines 93-122 and 144-215 *)

Context `{Frontend : !Parser}.

(** The process-wide state [Initialize] works on: the file-static
    [TheContext], LLVM's [EnableDebugBuffering], and the framework calls made
    so far, in order. *)
Record Runtime : Type := mkRuntime {
  TheContext : option LLVMContext;
  EnableDebugBuffering : bool;
  runtime_calls : list RuntimeCall
}.

(** [static llvm::LLVMContext *TheContext = nullptr], line 53. *)
Definition Runtime_initial : Runtime :=
  {| TheContext := None; EnableDebugBuffering := false; runtime_calls := [] |}.

(** [void Initialize()], lines 144-208. *)
Definition Initialize (rt : Runtime) : Runtime :=
  match TheContext rt with
  | Some _ => rt
  | None =>
      {| TheContext := Some LLVMContext_new;
         EnableDebugBuffering := true;
         runtime_calls :=
           runtime_calls rt ++
           [PrintStackTraceOnErrorSignal; EnablePrettyStackTrace;
            InitializeAllTargets; InitializeAllTargetMCs;
            InitializeAllAsmPrinters; InitializeAllAsmParsers;
            initializeCore; initializeScalarOpts; initializeObjCARCOpts;
            initializeVectorization; initializeIPO; initializeAnalysis;
            initializeTransformUtils; initializeInstCombine;
            initializeInstrumentation; initializeTarget;
            initializeCodeGenPreparePass; initializeAtomicExpandPass;
            initializeRewriteSymbolsPass; initializeWinEHPreparePass;
            initializeDwarfEHPreparePass; initializeSafeStackPass;
            initializeSjLjEHPreparePass; initializePreISelIntrinsicLoweringPass;
            initializeCodeGen; initializeLoopStrengthReducePass;
            initializeLowerIntrinsicsPass; initializeUnreachableBlockElimPass] |}
  end.

(** [void Finalize()], lines 210-215. *)
Definition Finalize (rt : Runtime) : Runtime :=
  {| TheContext := TheContext rt;
     EnableDebugBuffering := EnableDebugBuffering rt;
     runtime_calls := runtime_calls rt ++ [llvm_shutdown] |}.

(** [void HLC_Initialize()] and [void HLC_Finalize()], lines 538-546. *)
Definition HLC_Initialize (rt : Runtime) : Runtime := Initialize rt.
Definition HLC_Finalize (rt : Runtime) : Runtime := Finalize rt.

(** [new ModuleRef(M)]: the object is created at an address that holds no
    live [ModuleRef]. *)
Definition new_ModuleRef (r : ModuleRef) : Prog addr :=
  fun s =>
    let h := fresh (dom (refs s)) in
    Returns h {| refs := <[h := r]> (refs s); mods := mods s; errs := errs s |}.

(** [*TheContext]. *)
Definition deref_TheContext (rt : Runtime) : Prog LLVMContext :=
  fun s =>
    match TheContext rt with
    | Some C => Returns C s
    | None => Undefined
    end.

(** [ModuleRef * ModuleRef::parseAssembly(const char* Asm)], lines 93-99:
    [None] is the null result. *)
Definition ModuleRef_parseAssembly (rt : Runtime) (Asm : string)
  : Prog (option addr) :=
  C <- deref_TheContext rt ;;
  match parseAssemblyString Asm C with
  | None => ret None
  | Some m =>
      a <- new_Module m ;;
      h <- new_ModuleRef (mkModuleRef (Some a)) ;;
      ret (Some h)
  end.

(** [StringRef(Bitcode, Len)]: the first [Len] bytes of the buffer, which
    must have that many. *)
Definition StringRef (Bitcode : string) (Len : nat) : Prog string :=
  fun s =>
    if (Len <=? String.length Bitcode)%nat
    then Returns (substring 0 Len Bitcode) s
    else Undefined.

(** [ModuleRef * ModuleRef::parseBitcode(const char *Bitcode, size_t Len)],
    lines 101-122.  The result pairs the returned pointer with what [puts]
    has written to the standard output. *)
Definition ModuleRef_parseBitcode (rt : Runtime) (Bitcode : string) (Len : nat)
  : Prog (option addr * string) :=
  mbref <- StringRef Bitcode Len ;;
  C <- deref_TheContext rt ;;
  match parseBitcodeFile mbref C with
  | inr EC_message => ret (None, c_str EC_message +:+ newline)
  | inl m =>
      let m := materializeAll m in
      a <- new_Module m ;;
      mref <- new_ModuleRef (mkModuleRef (Some a)) ;;
      ret (Some mref, EmptyString)
  end.

(** [ModuleRef* HLC_ParseModule(const char *Asm)] and
    [ModuleRef* HLC_ParseBitcode(const char *Asm, size_t Len)], lines
    559-568. *)
Definition HLC_ParseModule (rt : Runtime) (Asm : string) : Prog (option addr) :=
  ModuleRef_parseAssembly rt Asm.

Definition HLC_ParseBitcode (rt : Runtime) (Asm : string) (Len : nat)
  : Prog (option addr * string) :=
  ModuleRef_parseBitcode rt Asm Len.

(** What the two allocations of a reader leave behind. *)
Definition parsed_state (m : IRModule) (s : State) : State :=
  {| refs := <[fresh (dom (refs s)) := mkModuleRef (Some (fresh (dom (mods s))))]> (refs s);
     mods := <[fresh (dom (mods s)) := m]> (mods s);
     errs := errs s |}.

(** [HLC_ModuleDestroy] on the result of a reader, as a caller that checks
    for the null result does it. *)
Definition destroy_parsed (h : option addr) : Prog unit :=
  match h with
  | Some Mh => HLC_ModuleDestroy Mh
  | None => ret tt
  end.

End Program.

Arguments Returns {_ _} a s.
Arguments Exits {_ _} code s.
Arguments Aborts {_ _} s.
Arguments Undefined {_ _}.

(** ** A small instance of the framework

    A module is a handful of fields, the verifier reads a flag, the target
    registry knows the target or not, and the default builder has loop
    vectorisation forced on or not.  It serves to run the definitions. *)

Module Mini.

Record ir : Type := mk_ir {
  ir_broken : bool;
  ir_triple : string;
  ir_layout : string;
  ir_functions : list string;
  ir_debug : bool
}.

Definition builder (RunLoopVectorization : bool) : PassManagerBuilder :=
  {| PMB_OptLevel := 2;
     PMB_SizeLevel := 0;
     PMB_Inliner := None;
     PMB_DisableUnitAtATime := false;
     PMB_DisableUnrollLoops := false;
     PMB_LoopVectorize := RunLoopVectorization;
     PMB_SLPVectorize := false;
     PMB_VerifyInput := false |}.

Definition llvm (registered RunLoopVectorization : bool) : LLVM :=
  {| IRModule := ir;
     Target := unit;
     TargetMachine := CodeGenOpt_Level;
     TargetOptions := bool;
     RelocModel := unit;
     CodeModel := unit;
     verifyModule := ir_broken;
     verifyModule_message := fun _ => "broken module";
     StripDebugInfo := fun m =>
       mk_ir (ir_broken m) (ir_triple m) (ir_layout m) (ir_functions m) false;
     setTargetTriple := fun t m =>
       mk_ir (ir_broken m) t (ir_layout m) (ir_functions m) (ir_debug m);
     getTargetTriple := ir_triple;
     getDataLayout := ir_layout;
     setDataLayout := fun l m =>
       mk_ir (ir_broken m) (ir_triple m) l (ir_functions m) (ir_debug m);
     DataLayout_isDefault := fun l => String.eqb l "";
     Module_size := fun m => length (ir_functions m);
     Module_print := fun m => String.concat "," (ir_functions m);
     Triple_normalize := fun t => t;
     Triple_getArch := fun t => if String.eqb t "" then 0 else 1;
     lookupTarget := fun _ _ =>
       if registered then inl tt else inr "no available target";
     createTargetMachine := fun _ _ _ _ _ _ _ lvl => Some lvl;
     createDataLayout := fun _ => "e-p:64:64";
     addPassesToEmitFile := fun _ _ _ => false;
     TargetOptions_default := false;
     InitTargetOptionsFromCodeGenFlags := false;
     set_AsmVerbose := fun b _ => b;
     getRelocModel := tt;
     CMModel := tt;
     setFunctionAttributes := fun _ _ m => m;
     PassManagerBuilder_new := builder RunLoopVectorization;
     CloneModule := fun m => m;
     linkModules := fun d s =>
       (false, mk_ir (ir_broken d) (ir_triple d) (ir_layout d)
                 (ir_functions d ++ ir_functions s) (ir_debug d)) |}.

Definition runner (registered RunLoopVectorization : bool)
  : @PassRunner (llvm registered RunLoopVectorization) :=
  {| PassManager_run := fun _ m => m;
     FPM_doInitialization := fun _ m => m;
     FPM_run := fun _ _ m => m;
     FPM_doFinalization := fun _ m => m;
     CodeGen_run := fun _ (m : @IRModule (llvm registered RunLoopVectorization)) =>
       (m, String.concat ";" (ir_functions m)) |}.

(** One handle, at address 1, owning the module at address 2. *)
Definition state (registered RunLoopVectorization : bool) (m : ir)
  : @State (llvm registered RunLoopVectorization) :=
  {| refs := {[ 1%positive := mkModuleRef (Some 2%positive) ]};
     mods := {[ 2%positive := m ]};
     errs := "" |}.

(** Two handles, at addresses 1 and 2, owning the modules at 3 and 4. *)
Definition state2 (registered RunLoopVectorization : bool) (dst src : ir)
  : @State (llvm registered RunLoopVectorization) :=
  {| refs := {[ 1%positive := mkModuleRef (Some 3%positive);
                2%positive := mkModuleRef (Some 4%positive) ]};
     mods := {[ 3%positive := dst; 4%positive := src ]};
     errs := "" |}.

Definition good : ir := mk_ir false "" "" ["f"; "g"] true.
Definition bad : ir := mk_ir true "" "" ["f"] true.

Definition zeroed : Indeterminate := mkIndeterminate false false false false.

(** The readers: the text reader rejects the empty text and otherwise
    yields one function of that name, broken when the name is "broken"; the
    bitcode reader wants the two signature bytes "BC". *)
(** The framework of [llvm true false] with a target machine that emits
    assembly text only. *)
Definition llvm_text_only : LLVM :=
  let L := llvm true false in
  {| IRModule := @IRModule L;
     Target := @Target L;
     TargetMachine := @TargetMachine L;
     TargetOptions := @TargetOptions L;
     RelocModel := @RelocModel L;
     CodeModel := @CodeModel L;
     verifyModule := @verifyModule L;
     verifyModule_message := @verifyModule_message L;
     StripDebugInfo := @StripDebugInfo L;
     setTargetTriple := @setTargetTriple L;
     getTargetTriple := @getTargetTriple L;
     getDataLayout := @getDataLayout L;
     setDataLayout := @setDataLayout L;
     DataLayout_isDefault := @DataLayout_isDefault L;
     Module_size := @Module_size L;
     Module_print := @Module_print L;
     Triple_normalize := @Triple_normalize L;
     Triple_getArch := @Triple_getArch L;
     lookupTarget := @lookupTarget L;
     createTargetMachine := @createTargetMachine L;
     createDataLayout := @createDataLayout L;
     addPassesToEmitFile := fun _ FileType _ =>
       match FileType with
       | CGFT_ObjectFile => true
       | CGFT_AssemblyFile => false
       end;
     TargetOptions_default := @TargetOptions_default L;
     InitTargetOptionsFromCodeGenFlags := @InitTargetOptionsFromCodeGenFlags L;
     set_AsmVerbose := @set_AsmVerbose L;
     getRelocModel := @getRelocModel L;
     CMModel := @CMModel L;
     setFunctionAttributes := @setFunctionAttributes L;
     PassManagerBuilder_new := @PassManagerBuilder_new L;
     CloneModule := @CloneModule L;
     linkModules := @linkModules L |}.

Definition runner_text_only : @PassRunner llvm_text_only :=
  {| PassManager_run := fun _ m => m;
     FPM_doInitialization := fun _ m => m;
     FPM_run := fun _ _ m => m;
     FPM_doFinalization := fun _ m => m;
     CodeGen_run := fun _ (m : @IRModule llvm_text_only) =>
       (m, String.concat ";" (ir_functions m)) |}.

Definition state_text_only (m : ir) : @State llvm_text_only :=
  {| refs := {[ 1%positive := mkModuleRef (Some 2%positive) ]};
     mods := {[ 2%positive := m ]};
     errs := "" |}.

(** A module whose printed text and generated code carry a NUL. *)
Definition with_NUL : ir :=
  mk_ir false "" "" [String "f" (String zero "g")] false.

Definition parse_text (Asm : string) : option ir :=
  if String.eqb Asm "" then None
  else Some (mk_ir (String.eqb Asm "broken") "" "" [Asm] true).

Definition parse_bytes (buf : string) : ir + string :=
  if String.prefix "BC" buf
  then inl (mk_ir false "" "" [substring 2 (String.length buf - 2) buf] false)
  else inr "Invalid bitcode signature".

Definition parser (registered RunLoopVectorization : bool)
  : @Parser (llvm registered RunLoopVectorization) :=
  @Build_Parser (llvm registered RunLoopVectorization)
    unit tt (fun Asm _ => parse_text Asm) (fun buf _ => parse_bytes buf)
    (fun m => m).

End Mini.

(** ** Properties *)

Section Properties.

Context `{Framework : LLVM} `{Runner : !PassRunner}.
Variable G : Globals.

(** *** Stepping through a program *)

Lemma bind_Returns {A B} (p : Prog A) (k : A -> Prog B) (s s' : State) (a : A) :
  p s = Returns a s' -> bind p k s = k a s'.
Proof. intros Hp. unfold bind. now rewrite Hp. Qed.

Lemma state_eta (s : State) :
  {| refs := refs s; mods := mods s; errs := errs s |} = s.
Proof. now destruct s. Qed.

(** The address [new_Module] picks holds no live module. *)
Lemma fresh_not_live (ms : gmap positive IRModule) : ms !! fresh (dom ms) = None.
Proof. apply not_elem_of_dom, is_fresh. Qed.

Lemma new_delete_Module (ms : gmap positive IRModule) (m : IRModule) :
  delete (fresh (dom ms)) (<[fresh (dom ms) := m]> ms) = ms.
Proof. apply delete_insert_id, fresh_not_live. Qed.

Lemma getModule_live (Mh : positive) (p : option positive) (s : State) :
  refs s !! Mh = Some (mkModuleRef p) ->
  ModuleRef_getModule Mh s = Returns p s.
Proof.
  intros Hh. unfold ModuleRef_getModule, this_ModuleRef, bind, ret.
  now rewrite Hh.
Qed.

Lemma deref_live (a : positive) (m : IRModule) (s : State) :
  mods s !! a = Some m -> deref (Some a) s = Returns m s.
Proof. intros Ha. unfold deref. now rewrite Ha. Qed.

Lemma CloneModule_new_live (a : positive) (m : IRModule) (s : State) :
  mods s !! a = Some m ->
  CloneModule_new (Some a) s =
    Returns (fresh (dom (mods s)))
      {| refs := refs s;
         mods := <[fresh (dom (mods s)) := CloneModule m]> (mods s);
         errs := errs s |}.
Proof.
  intros Ha. unfold CloneModule_new.
  rewrite (bind_Returns _ _ _ _ _ (deref_live _ _ _ Ha)). reflexivity.
Qed.

(** A range test of the form [x < 0 && x > hi] never holds. *)
Lemma below_and_above (x hi : Z) : 0 <= hi -> (x <? 0) && (hi <? x) = false.
Proof.
  intros Hhi. destruct (Z.ltb_spec x 0); [|reflexivity].
  destruct (Z.ltb_spec hi x); [lia|reflexivity].
Qed.

(** *** The code-generation level *)

(** C10: [GetCodeGenOptLevel] maps 1 to Less, 2 to Default, 3 to
    Aggressive, and every other integer, 0 and the values out of range
    included, to None. *)
Theorem GetCodeGenOptLevel_table :
  GetCodeGenOptLevel 1 = CodeGenOpt_Less /\
  GetCodeGenOptLevel 2 = CodeGenOpt_Default /\
  GetCodeGenOptLevel 3 = CodeGenOpt_Aggressive /\
  forall OptLevel : Z,
    OptLevel <> 1 -> OptLevel <> 2 -> OptLevel <> 3 ->
    GetCodeGenOptLevel OptLevel = CodeGenOpt_None.
Proof.
  repeat split.
  intros OptLevel H1 H2 H3. unfold GetCodeGenOptLevel.
  destruct OptLevel as [|p|p]; try reflexivity.
  destruct p as [[p|p|]|[p|p|]|]; try reflexivity; congruence.
Qed.

(** *** The boundary of [optimize] *)

Lemma HLC_ModuleOptimize_unfold u Mh OptLevel SizeLevel Verify :
  HLC_ModuleOptimize G u Mh OptLevel SizeLevel Verify =
  HLC_ModuleOptimize_unchecked G u Mh OptLevel SizeLevel Verify.
Proof.
  unfold HLC_ModuleOptimize.
  rewrite (below_and_above OptLevel 3), (below_and_above SizeLevel 2) by lia.
  reflexivity.
Qed.

(** C4: for all integers [OptLevel] and [SizeLevel] the two range
    conditions of the boundary layer ([< 0] and [> 3], [< 0] and [> 2]) are
    false; [HLC_ModuleOptimize] therefore always goes on to the dispatch,
    and whenever it returns, it returns 1. *)
Theorem HLC_ModuleOptimize_range_check_never_fires :
  forall (u : Indeterminate) (Mh : positive) (OptLevel SizeLevel Verify : Z),
    (OptLevel <? 0) && (3 <? OptLevel) = false /\
    (SizeLevel <? 0) && (2 <? SizeLevel) = false /\
    HLC_ModuleOptimize G u Mh OptLevel SizeLevel Verify =
      HLC_ModuleOptimize_unchecked G u Mh OptLevel SizeLevel Verify /\
    forall (s s' : State) (r : Z),
      HLC_ModuleOptimize G u Mh OptLevel SizeLevel Verify s = Returns r s' ->
      r = 1.
Proof.
  intros u Mh OptLevel SizeLevel Verify.
  split; [apply below_and_above; lia|].
  split; [apply below_and_above; lia|].
  split; [apply HLC_ModuleOptimize_unfold|].
  intros s s' r. rewrite HLC_ModuleOptimize_unfold.
  unfold HLC_ModuleOptimize_unchecked, bind, ret.
  destruct (ModuleRef_getModule Mh s); try discriminate.
  destruct (Optimize _ _ _ _ _ _ _); try discriminate.
  now intros [= <- _].
Qed.

(** C6: [Optimize] never consults its [SizeLevel] argument: two calls that
    differ in the size level only, from the same state and with the same
    values of the unassigned locals, have the same outcome, resulting
    modules included.  The same holds at the boundary. *)
Theorem Optimize_SizeLevel_irrelevant :
  forall (u : Indeterminate) (Mh : positive) (Mp : option positive)
         (OptLevel S1 S2 Verify : Z) (s : State),
    (forall m : IRModule,
        Optimize_verified G u m OptLevel S1 Verify =
        Optimize_verified G u m OptLevel S2 Verify) /\
    Optimize G u Mp OptLevel S1 Verify s = Optimize G u Mp OptLevel S2 Verify s /\
    HLC_ModuleOptimize G u Mh OptLevel S1 Verify s =
      HLC_ModuleOptimize G u Mh OptLevel S2 Verify s.
Proof.
  intros u Mh Mp OptLevel S1 S2 Verify s.
  split; [reflexivity|].
  split; [reflexivity|].
  rewrite !HLC_ModuleOptimize_unfold. reflexivity.
Qed.

(** *** Verification before the passes *)

(** C1: when the module handed to [Optimize] is broken at the verifier call
    that precedes pass construction (after the optional debug-info strip),
    the process is terminated by [exit(1)] with the verifier's text and
    "error: input module is broken!" on the error stream, whatever the
    level, size level and verify arguments; nothing is returned to the
    caller, at [Optimize] and at [HLC_ModuleOptimize] alike. *)
Theorem Optimize_broken_input_exits :
  forall (u : Indeterminate) (Mh a : positive) (m : IRModule)
         (OptLevel SizeLevel Verify : Z) (s : State),
    refs s !! Mh = Some (mkModuleRef (Some a)) ->
    mods s !! a = Some m ->
    verifyModule (if StripDebug G then StripDebugInfo m else m) = true ->
    let m1 := if StripDebug G then StripDebugInfo m else m in
    let s' := {| refs := refs s;
                 mods := <[a := m1]> (mods s);
                 errs := (errs s +:+ verifyModule_message m1)
                           +:+ ("error: input module is broken!" +:+ newline) |} in
    Optimize G u (Some a) OptLevel SizeLevel Verify s = Exits 1 s' /\
    HLC_ModuleOptimize G u Mh OptLevel SizeLevel Verify s = Exits 1 s'.
Proof.
  intros u Mh a m OptLevel SizeLevel Verify s Hh Ha Hbroken m1 s'.
  assert (Hopt : Optimize G u (Some a) OptLevel SizeLevel Verify s = Exits 1 s').
  { unfold Optimize.
    rewrite (bind_Returns _ _ _ _ _ (deref_live _ _ _ Ha)).
    fold m1. fold m1 in Hbroken. rewrite Hbroken.
    unfold bind, assign, errs_write, exit. rewrite Ha. reflexivity. }
  split; [exact Hopt|].
  rewrite HLC_ModuleOptimize_unfold. unfold HLC_ModuleOptimize_unchecked.
  rewrite (bind_Returns _ _ _ _ _ (getModule_live _ _ _ Hh)).
  unfold bind at 1. now rewrite Hopt.
Qed.

(** *** Operations on a disposable clone *)

Lemma assign_live (a : positive) (m m' : IRModule) (s : State) :
  mods s !! a = Some m ->
  assign (Some a) m' s =
    Returns tt {| refs := refs s; mods := <[a := m']> (mods s); errs := errs s |}.
Proof. intros Ha. unfold assign. now rewrite Ha. Qed.

Lemma delete_Module_live (a : positive) (m : IRModule) (s : State) :
  mods s !! a = Some m ->
  delete_Module (Some a) s =
    Returns tt {| refs := refs s; mods := delete a (mods s); errs := errs s |}.
Proof. intros Ha. unfold delete_Module. now rewrite Ha. Qed.

(** [CompileModule] on a live module [c]: it either returns, and then [c]
    has been released and no other object has changed, or it stops at the
    assertion on the target machine. *)
Lemma CompileModule_outcome (c : positive) (cm : IRModule) (emitBRIG : bool)
    (OptLevel : Z) (s : State) :
  mods s !! c = Some cm ->
  (exists (r : Z * string) (e : string),
      CompileModule c emitBRIG OptLevel s =
        Returns r {| refs := refs s; mods := delete c (mods s); errs := e |}) \/
  CompileModule c emitBRIG OptLevel s = Aborts s.
Proof.
  intros Hc. unfold CompileModule.
  destruct (lookupTarget MArch (Triple_normalize "amdgcn--amdhsa")) as [TheTarget|Error_].
  - destruct (createTargetMachine _ _ _ _ _ _ _ _) as [Target_|]; [|now right].
    left.
    rewrite (bind_Returns _ _ _ _ _ (deref_live _ _ _ Hc)).
    rewrite (bind_Returns _ _ _ _ _ (assign_live _ _ _ _ Hc)).
    destruct (addPassesToEmitFile _ _ _).
    + unfold bind, errs_write, delete_Module, ret; simpl.
      rewrite lookup_insert_eq, delete_insert_eq. eauto.
    + unfold bind, assign, delete_Module, ret; simpl.
      rewrite lookup_insert_eq; simpl.
      rewrite lookup_insert_eq, delete_insert_eq, delete_insert_eq. eauto.
  - left. unfold bind, errs_write, delete_Module, ret; simpl.
    rewrite Hc. eauto.
Qed.

(** C8: [HLC_ModuleEmitHSAIL] and [HLC_ModuleEmitBRIG] work on a clone of
    the module behind the handle.  Whenever either of them returns, with
    success or with failure, every handle and every module of the caller is
    as it was, so that printing the module gives the same text as before
    the call; the only other outcome is the failed assertion on the target
    machine, which ends the process. *)
Theorem emit_does_not_mutate_input :
  forall (Mh a : positive) (m : IRModule) (OptLevel : Z) (emitBRIG : bool) (s : State),
    refs s !! Mh = Some (mkModuleRef (Some a)) ->
    mods s !! a = Some m ->
    HLC_ModulePrint Mh s = Returns (HLC_CreateString (c_str (Module_print m))) s /\
    match (if emitBRIG then HLC_ModuleEmitBRIG Mh OptLevel s
           else HLC_ModuleEmitHSAIL Mh OptLevel s) with
    | Returns _ s' =>
        refs s' = refs s /\ mods s' = mods s /\
        HLC_ModulePrint Mh s' = Returns (HLC_CreateString (c_str (Module_print m))) s'
    | Aborts _ => True
    | Exits _ _ => False
    | Undefined => False
    end.
Proof.
  intros Mh a m OptLevel emitBRIG s Hh Ha.
  assert (Hprint : forall s' : State,
             refs s' = refs s -> mods s' = mods s ->
             HLC_ModulePrint Mh s' =
               Returns (HLC_CreateString (c_str (Module_print m))) s').
  { intros s' Hr Hm. unfold HLC_ModulePrint, ModuleRef_to_string, this_ModuleRef,
      deref, bind, ret. rewrite Hr, Hh; simpl. now rewrite Hm, Ha. }
  split; [now apply Hprint|].
  set (c := fresh (dom (mods s))).
  set (s1 := {| refs := refs s; mods := <[c := CloneModule m]> (mods s); errs := errs s |}).
  assert (Hc : mods s1 !! c = Some (CloneModule m)) by apply lookup_insert_eq.
  assert (Hback : delete c (<[c := CloneModule m]> (mods s)) = mods s)
    by apply new_delete_Module.
  destruct emitBRIG; [unfold HLC_ModuleEmitBRIG | unfold HLC_ModuleEmitHSAIL];
    rewrite (bind_Returns _ _ _ _ _ (getModule_live _ _ _ Hh));
    rewrite (bind_Returns _ _ _ _ _ (CloneModule_new_live _ _ _ Ha));
    fold c; fold s1; rewrite (below_and_above OptLevel 3) by lia;
    unfold bind at 1.
  - destruct (CompileModule_outcome c _ true OptLevel s1 Hc) as [(r & e & ->)| ->];
      [|exact I].
    destruct (negb (fst r =? 0)); unfold ret; simpl; rewrite Hback; auto.
  - destruct (CompileModule_outcome c _ false OptLevel s1 Hc) as [(r & e & ->)| ->];
      [|exact I].
    destruct (negb (fst r =? 0)); unfold ret; simpl; rewrite Hback; auto.
Qed.

(** C2: when the registry cannot resolve the target, [CompileModule] writes
    the registry's message and returns 0, the status it also returns after
    a successful run.  [HLC_ModuleEmitHSAIL] therefore returns 1 and hands
    out an empty string, and [HLC_ModuleEmitBRIG] sets the output to a block
    of size 0 and returns that size: neither takes its failure return. *)
Theorem emit_unresolved_target_not_reported :
  forall (Mh a : positive) (m : IRModule) (OptLevel : Z) (Error_ : string) (s : State),
    refs s !! Mh = Some (mkModuleRef (Some a)) ->
    mods s !! a = Some m ->
    lookupTarget MArch (Triple_normalize "amdgcn--amdhsa") = inr Error_ ->
    let s' := {| refs := refs s; mods := mods s; errs := errs s +:+ Error_ |} in
    HLC_ModuleEmitHSAIL Mh OptLevel s = Returns (1, Some EmptyString) s' /\
    HLC_ModuleEmitBRIG Mh OptLevel s = Returns (0, Some EmptyString) s'.
Proof.
  intros Mh a m OptLevel Error_ s Hh Ha Hlookup s'.
  assert (Hcompile : forall emitBRIG : bool,
    CompileModule (fresh (dom (mods s))) emitBRIG OptLevel
      {| refs := refs s;
         mods := <[fresh (dom (mods s)) := CloneModule m]> (mods s);
         errs := errs s |} = Returns (0, EmptyString) s').
  { intros emitBRIG. unfold CompileModule. rewrite Hlookup.
    unfold bind, errs_write, delete_Module, ret; simpl.
    rewrite lookup_insert_eq, new_delete_Module. reflexivity. }
  split.
  - unfold HLC_ModuleEmitHSAIL.
    rewrite (bind_Returns _ _ _ _ _ (getModule_live _ _ _ Hh)).
    rewrite (bind_Returns _ _ _ _ _ (CloneModule_new_live _ _ _ Ha)).
    rewrite (below_and_above OptLevel 3) by lia.
    now rewrite (bind_Returns _ _ _ _ _ (Hcompile false)).
  - unfold HLC_ModuleEmitBRIG.
    rewrite (bind_Returns _ _ _ _ _ (getModule_live _ _ _ Hh)).
    rewrite (bind_Returns _ _ _ _ _ (CloneModule_new_live _ _ _ Ha)).
    rewrite (below_and_above OptLevel 3) by lia.
    now rewrite (bind_Returns _ _ _ _ _ (Hcompile true)).
Qed.

(** *** Linking *)

Lemma Linker_linkModules_live (d c : positive) (dm cm : IRModule) (s : State) :
  d <> c ->
  mods s !! d = Some dm ->
  mods s !! c = Some cm ->
  Linker_linkModules (Some d) c s =
    Returns (fst (linkModules dm cm))
      {| refs := refs s;
         mods := delete c (<[d := snd (linkModules dm cm)]> (mods s));
         errs := errs s |}.
Proof.
  intros Hdc Hd Hc. unfold Linker_linkModules.
  rewrite (bind_Returns _ _ _ _ _ (deref_live _ _ _ Hd)).
  rewrite (bind_Returns _ _ _ _ _ (deref_live _ _ _ Hc)).
  rewrite (bind_Returns _ _ _ _ _ (assign_live _ _ _ _ Hd)).
  erewrite bind_Returns; [reflexivity|].
  apply delete_Module_live with (m := cm). simpl.
  now rewrite lookup_insert_ne.
Qed.

(** C7: [HLC_ModuleLinkIn] runs the verifier on the destination module and
    on the source module, each on its own, before it merges anything.  If
    either is broken the call returns 0 and the whole store, the
    destination module included, is exactly as before the call.  If both
    pass, the clone of the source is linked into the destination and the
    result is the negated status of the linker. *)
Theorem HLC_ModuleLinkIn_verifies_first :
  forall (Dst Src ad as_ : positive) (dm sm : IRModule) (s : State),
    refs s !! Dst = Some (mkModuleRef (Some ad)) ->
    refs s !! Src = Some (mkModuleRef (Some as_)) ->
    mods s !! ad = Some dm ->
    mods s !! as_ = Some sm ->
    (verifyModule dm = true \/ verifyModule sm = true ->
     HLC_ModuleLinkIn Dst Src s = Returns 0 s) /\
    (verifyModule dm = false -> verifyModule sm = false ->
     HLC_ModuleLinkIn Dst Src s =
       Returns (if fst (linkModules dm (CloneModule sm)) then 0 else 1)
         {| refs := refs s;
            mods := <[ad := snd (linkModules dm (CloneModule sm))]> (mods s);
            errs := errs s |}).
Proof.
  intros Dst Src ad as_ dm sm s HDst HSrc Had Has.
  set (c := fresh (dom (mods s))).
  assert (Hfresh : mods s !! c = None) by apply fresh_not_live.
  assert (Hcd : c <> ad) by congruence.
  assert (Hcs : c <> as_) by congruence.
  set (s1 := {| refs := refs s; mods := <[c := CloneModule sm]> (mods s); errs := errs s |}).
  assert (Hstart :
    HLC_ModuleLinkIn Dst Src s =
      (if verifyModule dm then bind (delete_Module (Some c)) (fun _ => ret 0)
       else if verifyModule sm then bind (delete_Module (Some c)) (fun _ => ret 0)
       else bind (Linker_linkModules (Some ad) c)
              (fun status : bool => ret (if status then 0 else 1))) s1).
  { unfold HLC_ModuleLinkIn.
    rewrite (bind_Returns _ _ _ _ _ (getModule_live _ _ _ HSrc)).
    rewrite (bind_Returns _ _ _ _ _ (CloneModule_new_live _ _ _ Has)).
    fold c; fold s1.
    assert (Had1 : mods s1 !! ad = Some dm) by (simpl; now rewrite lookup_insert_ne).
    assert (Has1 : mods s1 !! as_ = Some sm) by (simpl; now rewrite lookup_insert_ne).
    rewrite (bind_Returns _ _ _ _ _ (getModule_live Dst _ s1 HDst)).
    rewrite (bind_Returns _ _ _ _ _ (deref_live _ _ _ Had1)).
    destruct (verifyModule dm); [reflexivity|].
    rewrite (bind_Returns _ _ _ _ _ (getModule_live Src _ s1 HSrc)).
    rewrite (bind_Returns _ _ _ _ _ (deref_live _ _ _ Has1)).
    reflexivity. }
  assert (Hdrop : bind (delete_Module (Some c)) (fun _ => ret 0) s1 = Returns 0 s).
  { unfold bind, delete_Module, ret; simpl.
    rewrite lookup_insert_eq. unfold c. rewrite new_delete_Module.
    now rewrite state_eta. }
  split.
  - intros Hbroken. rewrite Hstart.
    destruct (verifyModule dm); [exact Hdrop|].
    destruct (verifyModule sm); [exact Hdrop|].
    destruct Hbroken; discriminate.
  - intros Hd Hs. rewrite Hstart, Hd, Hs.
    assert (Had1 : mods s1 !! ad = Some dm) by (simpl; now rewrite lookup_insert_ne).
    assert (Hc1 : mods s1 !! c = Some (CloneModule sm)) by apply lookup_insert_eq.
    rewrite (bind_Returns _ _ _ _ _
               (Linker_linkModules_live _ _ _ _ _ (not_eq_sym Hcd) Had1 Hc1)).
    unfold ret; simpl.
    rewrite (delete_insert_ne _ c ad) by exact Hcd.
    unfold c. rewrite new_delete_Module. reflexivity.
Qed.

(** *** Destroying a module *)

(** C9, as the code has it: [ModuleRef::destroy] releases the module and
    leaves the [ModuleRef] alive with a null module pointer, so that its
    boolean conversion is false and a second [destroy] changes nothing.
    [HLC_ModuleDestroy] then releases the [ModuleRef] itself: afterwards
    the handle names no live object and no module, its boolean conversion
    can no longer be taken, and a second [HLC_ModuleDestroy] on it has no
    defined behaviour. *)
Theorem destroy_releases_module_then_handle :
  forall (Mh a : positive) (m : IRModule) (s : State),
    refs s !! Mh = Some (mkModuleRef (Some a)) ->
    mods s !! a = Some m ->
    let s1 := {| refs := <[Mh := mkModuleRef None]> (refs s);
                 mods := delete a (mods s); errs := errs s |} in
    let s2 := {| refs := delete Mh (refs s);
                 mods := delete a (mods s); errs := errs s |} in
    (ModuleRef_bool Mh s = Returns true s /\
     ModuleRef_destroy Mh s = Returns tt s1 /\
     ModuleRef_getModule Mh s1 = Returns None s1 /\
     ModuleRef_bool Mh s1 = Returns false s1 /\
     ModuleRef_destroy Mh s1 = Returns tt s1) /\
    (HLC_ModuleDestroy Mh s = Returns tt s2 /\
     refs s2 !! Mh = None /\
     mods s2 !! a = None /\
     ModuleRef_bool Mh s2 = Undefined /\
     HLC_ModuleDestroy Mh s2 = Undefined).
Proof.
  intros Mh a m s Hh Ha s1 s2.
  assert (Hdestroy : ModuleRef_destroy Mh s = Returns tt s1).
  { unfold ModuleRef_destroy, this_ModuleRef, bind, delete_Module.
    rewrite Hh; simpl. now rewrite Ha. }
  assert (Hh1 : refs s1 !! Mh = Some (mkModuleRef None)) by apply lookup_insert_eq.
  assert (Hh2 : refs s2 !! Mh = None) by apply lookup_delete_eq.
  split; [split; [|split; [|split; [|split]]] | split; [|split; [|split; [|split]]]].
  - unfold ModuleRef_bool, this_ModuleRef, bind, ret. now rewrite Hh.
  - exact Hdestroy.
  - now apply getModule_live.
  - unfold ModuleRef_bool, this_ModuleRef, bind, ret. now rewrite Hh1.
  - unfold ModuleRef_destroy, this_ModuleRef, bind, delete_Module.
    rewrite Hh1; simpl. now rewrite insert_insert_eq.
  - unfold HLC_ModuleDestroy. rewrite (bind_Returns _ _ _ _ _ Hdestroy).
    unfold delete_ModuleRef. rewrite Hh1; simpl.
    now rewrite delete_insert_eq.
  - exact Hh2.
  - apply lookup_delete_eq.
  - unfold ModuleRef_bool, this_ModuleRef, bind. now rewrite Hh2.
  - unfold HLC_ModuleDestroy, ModuleRef_destroy, this_ModuleRef, bind.
    now rewrite Hh2.
Qed.

(** *** Pass selection *)

Lemma in_AddOptimizationPasses_fst (P : Pass) (MPM FPM : list Pass) (L S : Z) :
  In P MPM -> In P (fst (AddOptimizationPasses G MPM FPM L S)).
Proof. intros HP. unfold AddOptimizationPasses; simpl. apply in_or_app; now left. Qed.

Lemma in_AddOptimizationPasses_snd (P : Pass) (MPM FPM : list Pass) (L S : Z) :
  In P FPM -> In P (snd (AddOptimizationPasses G MPM FPM L S)).
Proof.
  intros HP. unfold AddOptimizationPasses; simpl.
  apply in_or_app; left. apply in_or_app; now left.
Qed.

Lemma AddOptimizationPasses_adds_fst (MPM FPM : list Pass) (L S : Z) :
  In (populateModulePassManager (AddOptimizationPasses_Builder G L S))
     (fst (AddOptimizationPasses G MPM FPM L S)).
Proof. unfold AddOptimizationPasses; simpl. apply in_or_app; right. now left. Qed.

Lemma AddOptimizationPasses_adds_snd (MPM FPM : list Pass) (L S : Z) :
  In (populateFunctionPassManager (AddOptimizationPasses_Builder G L S))
     (snd (AddOptimizationPasses G MPM FPM L S)).
Proof. unfold AddOptimizationPasses; simpl. apply in_or_app; right. now left. Qed.

(** The vectorisation fields [AddOptimizationPasses] computes from the level
    and size level it is given. *)
Lemma AddOptimizationPasses_vectorize (L S : Z) :
  PMB_SLPVectorize (AddOptimizationPasses_Builder G L S) =
    negb (DisableSLPVectorization G) && ((1 <? L) && (S <? 2)) /\
  PMB_LoopVectorize (AddOptimizationPasses_Builder G L S) =
    negb (DisableLoopVectorization G) &&
    (PMB_LoopVectorize PassManagerBuilder_new || ((1 <? L) && (S <? 2))).
Proof.
  unfold AddOptimizationPasses_Builder; simpl.
  destruct (DisableSLPVectorization G), (DisableLoopVectorization G),
    (PMB_LoopVectorize PassManagerBuilder_new); simpl; auto.
Qed.

(** Membership of an entry in the pass managers [Optimize] has built, at a
    fixed level: case analysis on the unassigned flags. *)
Ltac per_level_bundle :=
  unfold Optimize_Passes, Optimize_OptLevelO1, Optimize_OptLevelO2,
    Optimize_OptLevelO3, Optimize_StandardLinkOpts, AddOptimizationPasses,
    AddStandardLinkPasses;
  cbn [Z.eqb Z.ltb Z.compare Pos.eqb Pos.compare Pos.compare_cont];
  repeat match goal with
    | |- context [if ?b then _ else _] => destruct b
    end;
  cbn [fst snd app In]; auto 20.

(** C3, as the code has it: for a call of [Optimize] at level 1, 2 or 3 with
    any size level, the per-level bundle for that level is built by
    [AddOptimizationPasses] with the level and the literal size level 0;
    the requested size level is not handed on.  In that bundle SLP
    vectorisation is on exactly when the level exceeds 1 and
    [DisableSLPVectorization] is off; loop vectorisation is off when
    [DisableLoopVectorization] is set and is otherwise on exactly when the
    level exceeds 1 or the builder came with it already on.  The condition
    "level above 1 and size level below 2" is the one
    [AddOptimizationPasses] applies to the size level it receives. *)
Theorem Optimize_vectorization_by_level :
  forall (u : Indeterminate) (triple : string) (TM : option TargetMachine)
         (OptLevel SizeLevel Verify : Z),
    OptLevel = 1 \/ OptLevel = 2 \/ OptLevel = 3 ->
    let Builder := AddOptimizationPasses_Builder G OptLevel 0 in
    In (populateModulePassManager Builder)
       (fst (Optimize_Passes G u triple TM OptLevel SizeLevel Verify)) /\
    In (populateFunctionPassManager Builder)
       (snd (Optimize_Passes G u triple TM OptLevel SizeLevel Verify)) /\
    PMB_SizeLevel Builder = 0 /\
    PMB_SLPVectorize Builder =
      negb (DisableSLPVectorization G) && (1 <? OptLevel) /\
    PMB_LoopVectorize Builder =
      negb (DisableLoopVectorization G) &&
      (PMB_LoopVectorize PassManagerBuilder_new || (1 <? OptLevel)) /\
    forall L S : Z,
      PMB_SLPVectorize (AddOptimizationPasses_Builder G L S) =
        negb (DisableSLPVectorization G) && ((1 <? L) && (S <? 2)) /\
      PMB_LoopVectorize (AddOptimizationPasses_Builder G L S) =
        negb (DisableLoopVectorization G) &&
        (PMB_LoopVectorize PassManagerBuilder_new || ((1 <? L) && (S <? 2))).
Proof.
  intros u triple TM OptLevel SizeLevel Verify HL Builder.
  destruct (AddOptimizationPasses_vectorize OptLevel 0) as [Hslp Hloop].
  change (0 <? 2) with true in Hslp, Hloop. rewrite andb_true_r in Hslp, Hloop.
  split; [|split; [|split; [reflexivity|split; [exact Hslp|split; [exact Hloop|]]]]].
  - unfold Builder. destruct HL as [-> | [-> | ->]]; per_level_bundle.
  - unfold Builder. destruct HL as [-> | [-> | ->]]; per_level_bundle.
  - apply AddOptimizationPasses_vectorize.
Qed.

(** C5: at level 0 none of the four flags of [Optimize] is assigned, so the
    bundles that are built are the ones selected by the values the four
    locals hold unassigned: the link-time bundle under [StandardLinkOpts],
    the bundle of level 1, 2, 3 under [OptLevelO1], [OptLevelO2],
    [OptLevelO3], and the function passes run when one of the three level
    flags reads as true. *)
Theorem Optimize_level0_passes :
  forall (u : Indeterminate) (triple : string) (TM : option TargetMachine)
         (SizeLevel Verify : Z),
    fst (Optimize_Passes G u triple TM 0 SizeLevel Verify) =
      [TargetLibraryInfoWrapperPass triple true;
       createTargetTransformInfoWrapperPass (TargetIRAnalysis_of TM)]
      ++ (if ind_StandardLinkOpts u
          then [populateLTOPassManager (AddStandardLinkPasses_Builder G)] else [])
      ++ (if ind_OptLevelO1 u
          then [populateModulePassManager (AddOptimizationPasses_Builder G 1 0)] else [])
      ++ (if ind_OptLevelO2 u
          then [populateModulePassManager (AddOptimizationPasses_Builder G 2 0)] else [])
      ++ (if ind_OptLevelO3 u
          then [populateModulePassManager (AddOptimizationPasses_Builder G 3 0)] else []) /\
    Optimize_StandardLinkOpts u 0 = ind_StandardLinkOpts u /\
    Optimize_OptLevelO1 u 0 || Optimize_OptLevelO2 u 0 || Optimize_OptLevelO3 u 0 =
      ind_OptLevelO1 u || ind_OptLevelO2 u || ind_OptLevelO3 u.
Proof.
  intros [[] [] [] []] triple TM SizeLevel Verify; repeat split.
Qed.

End Properties.

(** ** Further properties of the code *)

Section Coverage.

Context `{Framework : LLVM} `{Runner : !PassRunner} `{Frontend : !Parser}.
Variable G : Globals.

(** *** Start-up and shut-down *)

Lemma Initialize_done (rt : Runtime) :
  is_Some (TheContext rt) -> Initialize rt = rt.
Proof. intros [C HC]. unfold Initialize. now rewrite HC. Qed.

Lemma Initialize_sets_context (rt : Runtime) : is_Some (TheContext (Initialize rt)).
Proof. unfold Initialize. destruct (TheContext rt) eqn:E; simpl; eauto. Qed.

(** X1: [Initialize] does its work at most once in a process.  Any number
    of further calls leaves the runtime exactly as the first call left it,
    and since [Finalize] does not reset [TheContext], a call after
    [Finalize] registers nothing again either. *)
Theorem Initialize_once :
  forall (rt : Runtime) (n : nat),
    Nat.iter n Initialize (Initialize rt) = Initialize rt /\
    is_Some (TheContext (Initialize rt)) /\
    TheContext (Finalize (Initialize rt)) = TheContext (Initialize rt) /\
    Initialize (Finalize (Initialize rt)) = Finalize (Initialize rt).
Proof.
  intros rt n. split; [|split; [|split]].
  - induction n as [|n IH]; [reflexivity|]. simpl. rewrite IH.
    apply Initialize_done, Initialize_sets_context.
  - apply Initialize_sets_context.
  - reflexivity.
  - apply Initialize_done. simpl. apply Initialize_sets_context.
Qed.

(** *** The readers *)

Lemma fresh_ref_not_live (rs : gmap positive ModuleRef) : rs !! fresh (dom rs) = None.
Proof. apply not_elem_of_dom, is_fresh. Qed.

Lemma deref_TheContext_set (rt : Runtime) (C : LLVMContext) (s : State) :
  TheContext rt = Some C -> deref_TheContext rt s = Returns C s.
Proof. intros HC. unfold deref_TheContext. now rewrite HC. Qed.

Lemma ModuleRef_parseAssembly_ok (rt : Runtime) (C : LLVMContext) (Asm : string)
    (m : IRModule) (s : State) :
  TheContext rt = Some C ->
  parseAssemblyString Asm C = Some m ->
  ModuleRef_parseAssembly rt Asm s =
    Returns (Some (fresh (dom (refs s)))) (parsed_state m s).
Proof.
  intros HC Hparse. unfold ModuleRef_parseAssembly.
  rewrite (bind_Returns _ _ _ _ _ (deref_TheContext_set _ _ _ HC)), Hparse.
  reflexivity.
Qed.

Lemma ModuleRef_parseBitcode_cases (rt : Runtime) (C : LLVMContext)
    (Bitcode : string) (Len : nat) (s : State) :
  TheContext rt = Some C ->
  (Len <= String.length Bitcode)%nat ->
  ModuleRef_parseBitcode rt Bitcode Len s =
    match parseBitcodeFile (substring 0 Len Bitcode) C with
    | inl m =>
        Returns (Some (fresh (dom (refs s))), EmptyString)
          (parsed_state (materializeAll m) s)
    | inr EC_message => Returns (None, c_str EC_message +:+ newline) s
    end.
Proof.
  intros HC HLen. apply Nat.leb_le in HLen.
  unfold ModuleRef_parseBitcode, StringRef, deref_TheContext, bind.
  rewrite HLen, HC.
  destruct (parseBitcodeFile _ C); reflexivity.
Qed.

Lemma HLC_ModuleDestroy_parsed (m : IRModule) (s : State) :
  HLC_ModuleDestroy (fresh (dom (refs s))) (parsed_state m s) = Returns tt s.
Proof.
  unfold HLC_ModuleDestroy, ModuleRef_destroy, this_ModuleRef, delete_ModuleRef,
    delete_Module, bind, parsed_state; simpl.
  rewrite lookup_insert_eq; simpl. rewrite lookup_insert_eq; simpl.
  rewrite lookup_insert_eq.
  rewrite insert_insert_eq, (delete_insert_id _ _ _ (fresh_ref_not_live _)).
  rewrite (delete_insert_id _ _ _ (fresh_not_live _)).
  now rewrite state_eta.
Qed.

(** X2: a successful [HLC_ParseModule] creates one module and one
    [ModuleRef] at addresses that were not in use and returns the new
    handle; the module is the reader's result as it is, no verifier is run
    on it.  Every handle and module that existed before is unchanged, the
    new handle converts to true, and printing it gives the text of the
    module just read. *)
Theorem HLC_ParseModule_new_handle :
  forall (rt : Runtime) (C : LLVMContext) (Asm : string) (m : IRModule) (s : State),
    TheContext rt = Some C ->
    parseAssemblyString Asm C = Some m ->
    let h := fresh (dom (refs s)) in
    let a := fresh (dom (mods s)) in
    let s' := {| refs := <[h := mkModuleRef (Some a)]> (refs s);
                 mods := <[a := m]> (mods s);
                 errs := errs s |} in
    HLC_ParseModule rt Asm s = Returns (Some h) s' /\
    refs s !! h = None /\
    mods s !! a = None /\
    (forall h' : positive, is_Some (refs s !! h') -> refs s' !! h' = refs s !! h') /\
    (forall a' : positive, is_Some (mods s !! a') -> mods s' !! a' = mods s !! a') /\
    ModuleRef_bool h s' = Returns true s' /\
    HLC_ModulePrint h s' = Returns (HLC_CreateString (c_str (Module_print m))) s'.
Proof.
  intros rt C Asm m s HC Hparse h a s'.
  assert (Hh : refs s !! h = None) by apply fresh_ref_not_live.
  assert (Ha : mods s !! a = None) by apply fresh_not_live.
  split; [exact (ModuleRef_parseAssembly_ok _ _ _ _ _ HC Hparse)|].
  split; [exact Hh|]. split; [exact Ha|].
  split; [|split; [|split]].
  - intros h' [r Hr]. simpl. apply lookup_insert_ne. congruence.
  - intros a' [m' Hm']. simpl. apply lookup_insert_ne. congruence.
  - unfold ModuleRef_bool, this_ModuleRef, bind, ret; simpl.
    now rewrite lookup_insert_eq.
  - unfold HLC_ModulePrint, ModuleRef_to_string, this_ModuleRef, deref, bind, ret;
      simpl.
    rewrite lookup_insert_eq; simpl. now rewrite lookup_insert_eq.
Qed.

(** X3: reading a module, from text or from bitcode, and destroying the
    handle that came back brings the store back to exactly what it was
    before the read; when the reader fails there is nothing to destroy and
    the store has not changed at all. *)
Theorem parse_then_destroy_restores_store :
  forall (rt : Runtime) (C : LLVMContext) (Asm : string) (Len : nat) (s : State),
    TheContext rt = Some C ->
    (Len <= String.length Asm)%nat ->
    bind (HLC_ParseModule rt Asm) destroy_parsed s = Returns tt s /\
    bind (HLC_ParseBitcode rt Asm Len) (fun r => destroy_parsed (fst r)) s =
      Returns tt s.
Proof.
  intros rt C Asm Len s HC HLen. split.
  - unfold HLC_ParseModule.
    destruct (parseAssemblyString Asm C) as [m|] eqn:Hparse.
    + rewrite (bind_Returns _ _ _ _ _ (ModuleRef_parseAssembly_ok _ _ _ _ _ HC Hparse)).
      apply HLC_ModuleDestroy_parsed.
    + unfold ModuleRef_parseAssembly, bind, deref_TheContext.
      now rewrite HC, Hparse.
  - unfold HLC_ParseBitcode, bind.
    rewrite (ModuleRef_parseBitcode_cases _ _ _ _ _ HC HLen).
    destruct (parseBitcodeFile _ C) as [m|msg]; [|reflexivity].
    simpl. apply HLC_ModuleDestroy_parsed.
Qed.

Lemma substring_append_prefix (buf junk : string) (Len : nat) :
  (Len <= String.length buf)%nat ->
  substring 0 Len (buf +:+ junk) = substring 0 Len buf.
Proof.
  revert Len. induction buf as [|c buf IH]; intros Len HLen; simpl in HLen.
  - assert (Len = 0%nat) as -> by lia. simpl. now destruct junk.
  - destruct Len as [|Len]; [reflexivity|]. simpl. f_equal. apply IH. lia.
Qed.

Lemma append_length (s1 s2 : string) :
  String.length (s1 +:+ s2) = (String.length s1 + String.length s2)%nat.
Proof. induction s1 as [|c s1 IH]; simpl; [reflexivity|now rewrite IH]. Qed.

Lemma substring_prefix_length (buf : string) (Len : nat) :
  (Len <= String.length buf)%nat ->
  String.length (substring 0 Len buf) = Len.
Proof.
  revert Len. induction buf as [|c buf IH]; intros Len HLen; simpl in HLen.
  - assert (Len = 0%nat) as -> by lia. reflexivity.
  - destruct Len as [|Len]; [reflexivity|]. simpl. f_equal. apply IH. lia.
Qed.

Lemma substring_prefix_all (buf : string) :
  substring 0 (String.length buf) buf = buf.
Proof. induction buf as [|c buf IH]; simpl; [reflexivity|now rewrite IH]. Qed.

(** X4: when the bitcode reader rejects the buffer, [HLC_ParseBitcode]
    returns the null handle, the message of the error code followed by a
    newline goes to the standard output (not to [errs()]), the process goes
    on, and the store is untouched. *)
Theorem HLC_ParseBitcode_decode_error :
  forall (rt : Runtime) (C : LLVMContext) (Bitcode msg : string) (Len : nat)
         (s : State),
    TheContext rt = Some C ->
    (Len <= String.length Bitcode)%nat ->
    parseBitcodeFile (substring 0 Len Bitcode) C = inr msg ->
    HLC_ParseBitcode rt Bitcode Len s = Returns (None, c_str msg +:+ newline) s.
Proof.
  intros rt C Bitcode msg Len s HC HLen Hdecode. unfold HLC_ParseBitcode.
  now rewrite (ModuleRef_parseBitcode_cases _ _ _ _ _ HC HLen), Hdecode.
Qed.

(** X5: [HLC_ParseBitcode] looks at the first [Len] bytes of the buffer
    only: whatever follows them has no influence on the outcome, which is
    the one for a buffer of exactly those [Len] bytes. *)
Theorem HLC_ParseBitcode_reads_Len_bytes :
  forall (rt : Runtime) (Bitcode junk : string) (Len : nat) (s : State),
    (Len <= String.length Bitcode)%nat ->
    HLC_ParseBitcode rt (Bitcode +:+ junk) Len s =
    HLC_ParseBitcode rt (substring 0 Len Bitcode) Len s.
Proof.
  intros rt Bitcode junk Len s HLen.
  assert (HLen1 : (Len <= String.length (Bitcode +:+ junk))%nat).
  { rewrite append_length. lia. }
  assert (HLen2 : (Len <= String.length (substring 0 Len Bitcode))%nat).
  { now rewrite substring_prefix_length. }
  unfold HLC_ParseBitcode.
  destruct (TheContext rt) as [C|] eqn:HC.
  - rewrite (ModuleRef_parseBitcode_cases _ _ _ _ _ HC HLen1),
      (ModuleRef_parseBitcode_cases _ _ _ _ _ HC HLen2).
    rewrite substring_append_prefix by exact HLen.
    pose proof (substring_prefix_all (substring 0 Len Bitcode)) as Hsame.
    rewrite substring_prefix_length in Hsame by exact HLen.
    now rewrite Hsame.
  - apply Nat.leb_le in HLen1, HLen2.
    unfold ModuleRef_parseBitcode, StringRef, deref_TheContext, bind.
    now rewrite HLen1, HLen2, HC.
Qed.


(** *** Code generation *)

Lemma emit_on_clone (Mh a : positive) (m : IRModule) (s : State)
    {A} (k : positive -> Prog A) :
  refs s !! Mh = Some (mkModuleRef (Some a)) ->
  mods s !! a = Some m ->
  bind (ModuleRef_getModule Mh) (fun ref => bind (CloneModule_new ref) k) s =
    k (fresh (dom (mods s)))
      {| refs := refs s;
         mods := <[fresh (dom (mods s)) := CloneModule m]> (mods s);
         errs := errs s |}.
Proof.
  intros Hh Ha.
  rewrite (bind_Returns _ _ _ _ _ (getModule_live _ _ _ Hh)).
  now rewrite (bind_Returns _ _ _ _ _ (CloneModule_new_live _ _ _ Ha)).
Qed.

(** [CompileModule] once the target and its machine are there. *)
Lemma CompileModule_resolved (c : positive) (cm : IRModule) (emitBRIG : bool)
    (OptLevel : Z) (TheTarget : Target) (TM : TargetMachine) (s : State) :
  mods s !! c = Some cm ->
  lookupTarget MArch (Triple_normalize "amdgcn--amdhsa") = inl TheTarget ->
  createTargetMachine TheTarget (Triple_normalize "amdgcn--amdhsa") "fiji"
    "+promote-alloca,+fp64-denormals,+flat-for-global,"
    (set_AsmVerbose true InitTargetOptionsFromCodeGenFlags)
    getRelocModel CMModel (CompileModule_OLvl OptLevel) = Some TM ->
  let FileType := if emitBRIG then CGFT_ObjectFile else CGFT_AssemblyFile in
  let prepared :=
    setFunctionAttributes "fiji" "+promote-alloca,+fp64-denormals,+flat-for-global,"
      (setDataLayout (createDataLayout TM) cm) in
  CompileModule c emitBRIG OptLevel s =
    if addPassesToEmitFile TM FileType true
    then Returns (1, EmptyString)
           {| refs := refs s; mods := delete c (mods s);
              errs := (errs s +:+ "target does not support generation of this")
                        +:+ (" file type!" +:+ newline) |}
    else Returns
           (0, snd (CodeGen_run
                      [TargetLibraryInfoWrapperPass (getTargetTriple cm) true;
                       EmitFilePasses TM FileType true] prepared))
           {| refs := refs s; mods := delete c (mods s); errs := errs s |}.
Proof.
  intros Hc Hlookup Hmachine FileType prepared.
  unfold CompileModule. rewrite Hlookup, Hmachine.
  rewrite (bind_Returns _ _ _ _ _ (deref_live _ _ _ Hc)).
  rewrite (bind_Returns _ _ _ _ _ (assign_live _ _ _ _ Hc)).
  fold FileType. fold prepared.
  destruct (addPassesToEmitFile TM FileType true).
  - unfold bind, errs_write, delete_Module, ret; simpl.
    now rewrite lookup_insert_eq, delete_insert_eq.
  - unfold bind, assign, delete_Module, ret; simpl.
    rewrite lookup_insert_eq; simpl.
    now rewrite lookup_insert_eq, !delete_insert_eq.
Qed.

(** X7: when the target machine cannot emit the requested kind of file,
    both emitters take their failure return: the result is 0, [*output] is
    not set, the message "target does not support generation of this file
    type!" is on the error stream, and handles and modules are those before
    the call. *)
Theorem emit_unsupported_file_type :
  forall (Mh a : positive) (m : IRModule) (OptLevel : Z) (emitBRIG : bool)
         (TheTarget : Target) (TM : TargetMachine) (s : State),
    refs s !! Mh = Some (mkModuleRef (Some a)) ->
    mods s !! a = Some m ->
    lookupTarget MArch (Triple_normalize "amdgcn--amdhsa") = inl TheTarget ->
    createTargetMachine TheTarget (Triple_normalize "amdgcn--amdhsa") "fiji"
      "+promote-alloca,+fp64-denormals,+flat-for-global,"
      (set_AsmVerbose true InitTargetOptionsFromCodeGenFlags)
      getRelocModel CMModel (CompileModule_OLvl OptLevel) = Some TM ->
    addPassesToEmitFile TM
      (if emitBRIG then CGFT_ObjectFile else CGFT_AssemblyFile) true = true ->
    (if emitBRIG then HLC_ModuleEmitBRIG Mh OptLevel s
     else HLC_ModuleEmitHSAIL Mh OptLevel s) =
      Returns (0, None)
        {| refs := refs s; mods := mods s;
           errs := (errs s +:+ "target does not support generation of this")
                     +:+ (" file type!" +:+ newline) |}.
Proof.
  intros Mh a m OptLevel emitBRIG TheTarget TM s Hh Ha Hlookup Hmachine Hkind.
  destruct emitBRIG; [unfold HLC_ModuleEmitBRIG | unfold HLC_ModuleEmitHSAIL];
    rewrite (emit_on_clone _ _ _ _ _ Hh Ha);
    rewrite (below_and_above OptLevel 3) by lia;
    unfold bind;
    rewrite (CompileModule_resolved _ (CloneModule m) _ _ _ _ _
               (lookup_insert_eq _ _ _) Hlookup Hmachine);
    rewrite Hkind; simpl; now rewrite new_delete_Module.
Qed.

(** X8: when the target machine takes the passes, the emitters run the
    target-library wrapper and the emit passes once over the clone, after
    giving it the machine's data layout and the function attributes for
    "fiji".  [HLC_ModuleEmitHSAIL] returns 1 and hands out what was written
    up to its first NUL; [HLC_ModuleEmitBRIG] returns the number of bytes
    written and hands out all of them.  The state afterwards is the state
    before. *)
Theorem emit_success :
  forall (Mh a : positive) (m : IRModule) (OptLevel : Z) (emitBRIG : bool)
         (TheTarget : Target) (TM : TargetMachine) (s : State),
    refs s !! Mh = Some (mkModuleRef (Some a)) ->
    mods s !! a = Some m ->
    lookupTarget MArch (Triple_normalize "amdgcn--amdhsa") = inl TheTarget ->
    createTargetMachine TheTarget (Triple_normalize "amdgcn--amdhsa") "fiji"
      "+promote-alloca,+fp64-denormals,+flat-for-global,"
      (set_AsmVerbose true InitTargetOptionsFromCodeGenFlags)
      getRelocModel CMModel (CompileModule_OLvl OptLevel) = Some TM ->
    addPassesToEmitFile TM
      (if emitBRIG then CGFT_ObjectFile else CGFT_AssemblyFile) true = false ->
    let buf :=
      snd (CodeGen_run
             [TargetLibraryInfoWrapperPass (getTargetTriple (CloneModule m)) true;
              EmitFilePasses TM
                (if emitBRIG then CGFT_ObjectFile else CGFT_AssemblyFile) true]
             (setFunctionAttributes "fiji"
                "+promote-alloca,+fp64-denormals,+flat-for-global,"
                (setDataLayout (createDataLayout TM) (CloneModule m)))) in
    (if emitBRIG then HLC_ModuleEmitBRIG Mh OptLevel s
     else HLC_ModuleEmitHSAIL Mh OptLevel s) =
      Returns (if emitBRIG then (Z.of_nat (String.length buf), Some buf)
               else (1, Some (c_str buf))) s.
Proof.
  intros Mh a m OptLevel emitBRIG TheTarget TM s Hh Ha Hlookup Hmachine Hkind buf.
  destruct emitBRIG; [unfold HLC_ModuleEmitBRIG | unfold HLC_ModuleEmitHSAIL];
    rewrite (emit_on_clone _ _ _ _ _ Hh Ha);
    rewrite (below_and_above OptLevel 3) by lia;
    unfold bind;
    rewrite (CompileModule_resolved _ (CloneModule m) _ _ _ _ _
               (lookup_insert_eq _ _ _) Hlookup Hmachine);
    rewrite Hkind; simpl; rewrite new_delete_Module, state_eta; reflexivity.
Qed.

(** X9: the level switch of [CompileModule] and [GetCodeGenOptLevel] agree
    on the levels 0 to 3 and on no other level: outside that range code
    generation runs at [Default], while [GetCodeGenOptLevel], which the
    optimiser uses for its target machine, gives [None]. *)
Theorem CompileModule_OLvl_vs_GetCodeGenOptLevel :
  forall OptLevel : Z,
    (0 <= OptLevel <= 3 -> CompileModule_OLvl OptLevel = GetCodeGenOptLevel OptLevel) /\
    (OptLevel < 0 \/ 3 < OptLevel ->
     CompileModule_OLvl OptLevel = CodeGenOpt_Default /\
     GetCodeGenOptLevel OptLevel = CodeGenOpt_None).
Proof.
  intros OptLevel. split.
  - intros H. assert (OptLevel = 0 \/ OptLevel = 1 \/ OptLevel = 2 \/ OptLevel = 3)
      as [-> | [-> | [-> | ->]]] by lia; reflexivity.
  - intros H. destruct OptLevel as [|p|p]; [lia| |now split].
    destruct p as [[p|p|]|[p|p|]|]; try (now split); lia.
Qed.

(** *** The optimiser at the boundary *)

(** X10: on a live handle whose module passes the verifier,
    [HLC_ModuleOptimize] always returns 1, for every level, size level and
    verify value: the outcome of the final verifier pass inside the pass
    run is not looked at.  The module behind the handle is replaced by the
    result of the pipeline; every other module, every handle and the error
    stream are unchanged. *)
Theorem HLC_ModuleOptimize_succeeds :
  forall (u : Indeterminate) (Mh a : positive) (m : IRModule)
         (OptLevel SizeLevel Verify : Z) (s : State),
    refs s !! Mh = Some (mkModuleRef (Some a)) ->
    mods s !! a = Some m ->
    verifyModule (if StripDebug G then StripDebugInfo m else m) = false ->
    HLC_ModuleOptimize G u Mh OptLevel SizeLevel Verify s =
      Returns 1
        {| refs := refs s;
           mods := <[a := Optimize_verified G u
                            (if StripDebug G then StripDebugInfo m else m)
                            OptLevel SizeLevel Verify]> (mods s);
           errs := errs s |}.
Proof.
  intros u Mh a m OptLevel SizeLevel Verify s Hh Ha Hsound.
  rewrite HLC_ModuleOptimize_unfold. unfold HLC_ModuleOptimize_unchecked.
  rewrite (bind_Returns _ _ _ _ _ (getModule_live _ _ _ Hh)).
  erewrite bind_Returns; [reflexivity|].
  unfold Optimize.
  rewrite (bind_Returns _ _ _ _ _ (deref_live _ _ _ Ha)).
  rewrite (bind_Returns _ _ _ _ _ (assign_live _ _ _ _ Ha)).
  rewrite Hsound.
  erewrite assign_live by apply lookup_insert_eq. simpl.
  now rewrite insert_insert_eq.
Qed.

(** X11: no operation of the boundary tests a handle before using it.  On
    a handle that has been destroyed, be it through [HLC_ModuleDestroy]
    (the [ModuleRef] is gone) or through [ModuleRef::destroy] (its module
    pointer is null), optimising, printing, emitting and linking, as
    destination or as source, all have undefined behaviour. *)
Theorem destroyed_handle_is_never_checked :
  forall (u : Indeterminate) (Mh other : positive)
         (OptLevel SizeLevel Verify : Z) (s : State),
    refs s !! Mh = None \/ refs s !! Mh = Some (mkModuleRef None) ->
    HLC_ModuleOptimize G u Mh OptLevel SizeLevel Verify s = Undefined /\
    HLC_ModulePrint Mh s = Undefined /\
    HLC_ModuleEmitHSAIL Mh OptLevel s = Undefined /\
    HLC_ModuleEmitBRIG Mh OptLevel s = Undefined /\
    HLC_ModuleLinkIn other Mh s = Undefined /\
    HLC_ModuleLinkIn Mh other s = Undefined.
Proof.
  intros u Mh other OptLevel SizeLevel Verify s Hdead.
  assert (Hclone : forall {A} (k : positive -> Prog A),
             bind (ModuleRef_getModule Mh)
               (fun ref => bind (CloneModule_new ref) k) s = Undefined).
  { intros A k.
    unfold ModuleRef_getModule, this_ModuleRef, CloneModule_new, deref, bind, ret.
    destruct Hdead as [-> | ->]; reflexivity. }
  split; [|split; [|split; [|split; [|split]]]].
  - rewrite HLC_ModuleOptimize_unfold.
    unfold HLC_ModuleOptimize_unchecked, ModuleRef_getModule, this_ModuleRef,
      Optimize, deref, bind, ret.
    destruct Hdead as [-> | ->]; reflexivity.
  - unfold HLC_ModulePrint, ModuleRef_to_string, this_ModuleRef, deref, bind, ret.
    destruct Hdead as [-> | ->]; reflexivity.
  - apply Hclone.
  - apply Hclone.
  - apply Hclone.
  - unfold HLC_ModuleLinkIn, ModuleRef_getModule, this_ModuleRef,
      CloneModule_new, new_Module, deref, bind, ret.
    destruct (refs s !! other) as [[[a|]]|]; simpl; try reflexivity.
    destruct (mods s !! a) as [m|]; simpl; [|reflexivity].
    destruct Hdead as [-> | ->]; reflexivity.
Qed.

(** *** Pass selection, for every level *)

(** The two pass managers of [Optimize] in terms of its four flags. *)
Lemma Optimize_Passes_by_flags (u : Indeterminate) (triple : string)
    (TM : option TargetMachine) (OptLevel SizeLevel Verify : Z) :
  Optimize_Passes G u triple TM OptLevel SizeLevel Verify =
    ([TargetLibraryInfoWrapperPass triple true;
      createTargetTransformInfoWrapperPass (TargetIRAnalysis_of TM)]
     ++ (if Optimize_StandardLinkOpts u OptLevel
         then [populateLTOPassManager (AddStandardLinkPasses_Builder G)] else [])
     ++ (if Optimize_OptLevelO1 u OptLevel
         then [populateModulePassManager (AddOptimizationPasses_Builder G 1 0)] else [])
     ++ (if Optimize_OptLevelO2 u OptLevel
         then [populateModulePassManager (AddOptimizationPasses_Builder G 2 0)] else [])
     ++ (if Optimize_OptLevelO3 u OptLevel
         then [populateModulePassManager (AddOptimizationPasses_Builder G 3 0)] else []),
     [createTargetTransformInfoWrapperPass (TargetIRAnalysis_of TM)]
     ++ (if Optimize_OptLevelO1 u OptLevel
         then [createVerifierPass;
               populateFunctionPassManager (AddOptimizationPasses_Builder G 1 0)] else [])
     ++ (if Optimize_OptLevelO2 u OptLevel
         then [createVerifierPass;
               populateFunctionPassManager (AddOptimizationPasses_Builder G 2 0)] else [])
     ++ (if Optimize_OptLevelO3 u OptLevel
         then [createVerifierPass;
               populateFunctionPassManager (AddOptimizationPasses_Builder G 3 0)] else [])).
Proof.
  unfold Optimize_Passes.
  destruct (Optimize_StandardLinkOpts u OptLevel), (Optimize_OptLevelO1 u OptLevel),
    (Optimize_OptLevelO2 u OptLevel), (Optimize_OptLevelO3 u OptLevel); reflexivity.
Qed.

(** X12: whatever the level, the size level and the values of the
    unassigned flags, the module pass manager of [Optimize] starts with the
    target-library wrapper with every library function disabled
    ([DisableSimplifyLibCalls] is not consulted) followed by the
    target-transform wrapper, and every per-level bundle in either pass
    manager was built for a level among 1, 2, 3 with size level 0: loop
    unrolling is never disabled in it. *)
Theorem Optimize_Passes_invariants :
  forall (u : Indeterminate) (triple : string) (TM : option TargetMachine)
         (OptLevel SizeLevel Verify : Z),
    (exists rest : list Pass,
        fst (Optimize_Passes G u triple TM OptLevel SizeLevel Verify) =
          TargetLibraryInfoWrapperPass triple true
          :: createTargetTransformInfoWrapperPass (TargetIRAnalysis_of TM)
          :: rest) /\
    (forall Builder : PassManagerBuilder,
        In (populateModulePassManager Builder)
           (fst (Optimize_Passes G u triple TM OptLevel SizeLevel Verify)) \/
        In (populateFunctionPassManager Builder)
           (snd (Optimize_Passes G u triple TM OptLevel SizeLevel Verify)) ->
        (PMB_OptLevel Builder = 1 \/ PMB_OptLevel Builder = 2 \/
         PMB_OptLevel Builder = 3) /\
        PMB_SizeLevel Builder = 0 /\
        PMB_DisableUnrollLoops Builder = false).
Proof.
  intros u triple TM OptLevel SizeLevel Verify.
  rewrite Optimize_Passes_by_flags. split.
  - simpl. eauto.
  - intros Builder HB.
    destruct (Optimize_StandardLinkOpts u OptLevel), (Optimize_OptLevelO1 u OptLevel),
      (Optimize_OptLevelO2 u OptLevel), (Optimize_OptLevelO3 u OptLevel);
      cbn [fst snd app In] in HB;
      repeat match goal with
        | H : _ \/ _ |- _ => destruct H
        | H : False |- _ => destruct H
        | H : populateModulePassManager _ = populateModulePassManager _ |- _ =>
            injection H as <-
        | H : populateFunctionPassManager _ = populateFunctionPassManager _ |- _ =>
            injection H as <-
        | H : _ = _ |- _ => discriminate H
        end;
      cbn; auto.
Qed.

(** X13: with the three level flags and [StandardLinkOpts] reading as
    false where they are not assigned, the dispatch of [Optimize] is: for a
    level of 0 or below, the two wrappers and nothing else; for level 1, 2
    or 3, the link-time bundle and the bundle of that level, with the
    function passes run; for a level above 3, which the boundary lets
    through, the link-time bundle alone. *)
Theorem Optimize_Passes_dispatch :
  forall (triple : string) (TM : option TargetMachine) (OptLevel SizeLevel Verify : Z),
    let u := mkIndeterminate false false false false in
    let base := [TargetLibraryInfoWrapperPass triple true;
                 createTargetTransformInfoWrapperPass (TargetIRAnalysis_of TM)] in
    let LTO := populateLTOPassManager (AddStandardLinkPasses_Builder G) in
    let run_FPasses :=
      Optimize_OptLevelO1 u OptLevel || Optimize_OptLevelO2 u OptLevel
      || Optimize_OptLevelO3 u OptLevel in
    (OptLevel <= 0 ->
     fst (Optimize_Passes G u triple TM OptLevel SizeLevel Verify) = base /\
     run_FPasses = false) /\
    (OptLevel = 1 \/ OptLevel = 2 \/ OptLevel = 3 ->
     Optimize_Passes G u triple TM OptLevel SizeLevel Verify =
       (base ++ [LTO; populateModulePassManager
                        (AddOptimizationPasses_Builder G OptLevel 0)],
        [createTargetTransformInfoWrapperPass (TargetIRAnalysis_of TM);
         createVerifierPass;
         populateFunctionPassManager (AddOptimizationPasses_Builder G OptLevel 0)]) /\
     run_FPasses = true) /\
    (3 < OptLevel ->
     fst (Optimize_Passes G u triple TM OptLevel SizeLevel Verify) = base ++ [LTO] /\
     run_FPasses = false).
Proof.
  intros triple TM OptLevel SizeLevel Verify u base LTO run_FPasses.
  subst run_FPasses. rewrite Optimize_Passes_by_flags.
  unfold Optimize_StandardLinkOpts, Optimize_OptLevelO1, Optimize_OptLevelO2,
    Optimize_OptLevelO3, u; simpl.
  split; [|split].
  - intros HL.
    destruct (Z.ltb_spec 0 OptLevel); [lia|].
    destruct (Z.eqb_spec OptLevel 1); [lia|].
    destruct (Z.eqb_spec OptLevel 2); [lia|].
    destruct (Z.eqb_spec OptLevel 3); [lia|]. now split.
  - intros [-> | [-> | ->]]; now split.
  - intros HL.
    destruct (Z.ltb_spec 0 OptLevel); [|lia].
    destruct (Z.eqb_spec OptLevel 1); [lia|].
    destruct (Z.eqb_spec OptLevel 2); [lia|].
    destruct (Z.eqb_spec OptLevel 3); [lia|]. now split.
Qed.

(** X14: at every level above 0, whatever the unassigned flags hold, the
    link-time bundle is built, with input verification on, and it is the
    third entry of the pass manager, ahead of every per-level bundle. *)
Theorem Optimize_link_bundle_first :
  forall (u : Indeterminate) (triple : string) (TM : option TargetMachine)
         (OptLevel SizeLevel Verify : Z),
    0 < OptLevel ->
    PMB_VerifyInput (AddStandardLinkPasses_Builder G) = true /\
    exists rest : list Pass,
      fst (Optimize_Passes G u triple TM OptLevel SizeLevel Verify) =
        TargetLibraryInfoWrapperPass triple true
        :: createTargetTransformInfoWrapperPass (TargetIRAnalysis_of TM)
        :: populateLTOPassManager (AddStandardLinkPasses_Builder G)
        :: rest /\
      forall P : Pass, In P rest ->
        exists L : Z, P = populateModulePassManager (AddOptimizationPasses_Builder G L 0).
Proof.
  intros u triple TM OptLevel SizeLevel Verify HL.
  split; [reflexivity|].
  rewrite Optimize_Passes_by_flags.
  assert (Optimize_StandardLinkOpts u OptLevel = true) as ->.
  { unfold Optimize_StandardLinkOpts. destruct (Z.ltb_spec 0 OptLevel); [reflexivity|lia]. }
  eexists. split; [reflexivity|].
  intros P HP.
  destruct (Optimize_OptLevelO1 u OptLevel), (Optimize_OptLevelO2 u OptLevel),
    (Optimize_OptLevelO3 u OptLevel); cbn [app In] in HP;
    repeat match goal with
      | H : _ \/ _ |- _ => destruct H
      | H : False |- _ => destruct H
      end; subst; eauto.
Qed.

(** *** Linking and destroying, seen from the other modules *)

(** [HLC_ModuleLinkIn] on two live handles, in one equation. *)
Lemma HLC_ModuleLinkIn_run (Dst Src ad as_ : positive) (dm sm : IRModule) (s : State) :
  refs s !! Dst = Some (mkModuleRef (Some ad)) ->
  refs s !! Src = Some (mkModuleRef (Some as_)) ->
  mods s !! ad = Some dm ->
  mods s !! as_ = Some sm ->
  HLC_ModuleLinkIn Dst Src s =
    if verifyModule dm || verifyModule sm then Returns 0 s
    else Returns (if fst (linkModules dm (CloneModule sm)) then 0 else 1)
           {| refs := refs s;
              mods := <[ad := snd (linkModules dm (CloneModule sm))]> (mods s);
              errs := errs s |}.
Proof.
  intros HDst HSrc Had Has.
  set (c := fresh (dom (mods s))).
  assert (Hfresh : mods s !! c = None) by apply fresh_not_live.
  assert (Hcd : c <> ad) by congruence.
  assert (Hcs : c <> as_) by congruence.
  unfold HLC_ModuleLinkIn.
  rewrite (emit_on_clone _ _ _ _ _ HSrc Has). fold c.
  set (s1 := {| refs := refs s; mods := <[c := CloneModule sm]> (mods s);
                errs := errs s |}).
  assert (Had1 : mods s1 !! ad = Some dm) by (simpl; now rewrite lookup_insert_ne).
  assert (Has1 : mods s1 !! as_ = Some sm) by (simpl; now rewrite lookup_insert_ne).
  assert (Hc1 : mods s1 !! c = Some (CloneModule sm)) by apply lookup_insert_eq.
  assert (Hdrop : bind (delete_Module (Some c)) (fun _ => ret 0) s1 = Returns 0 s).
  { rewrite (bind_Returns _ _ _ _ _ (delete_Module_live _ _ _ Hc1)).
    unfold ret; simpl. unfold c. now rewrite new_delete_Module, state_eta. }
  rewrite (bind_Returns _ _ _ _ _ (getModule_live Dst _ s1 HDst)).
  rewrite (bind_Returns _ _ _ _ _ (deref_live _ _ _ Had1)).
  destruct (verifyModule dm); [exact Hdrop|].
  rewrite (bind_Returns _ _ _ _ _ (getModule_live Src _ s1 HSrc)).
  rewrite (bind_Returns _ _ _ _ _ (deref_live _ _ _ Has1)).
  destruct (verifyModule sm); [exact Hdrop|]. simpl.
  rewrite (bind_Returns _ _ _ _ _
             (Linker_linkModules_live _ _ _ _ _ (not_eq_sym Hcd) Had1 Hc1)).
  unfold ret; simpl.
  rewrite (delete_insert_ne _ c ad) by exact Hcd.
  unfold c. now rewrite new_delete_Module.
Qed.

(** X15: [HLC_ModuleLinkIn] on two live handles with distinct modules
    always returns, with 0 or 1, and 1 exactly when both modules pass the
    verifier and the linker reports no error.  Whatever it returns, the
    source module is the one it was, so the source prints as before, and
    the handles, the error stream and every module other than the
    destination are unchanged. *)
Theorem HLC_ModuleLinkIn_source_untouched :
  forall (Dst Src ad as_ : positive) (dm sm : IRModule) (s : State),
    refs s !! Dst = Some (mkModuleRef (Some ad)) ->
    refs s !! Src = Some (mkModuleRef (Some as_)) ->
    mods s !! ad = Some dm ->
    mods s !! as_ = Some sm ->
    ad <> as_ ->
    exists (r : Z) (s' : State),
      HLC_ModuleLinkIn Dst Src s = Returns r s' /\
      (r = 1 /\ verifyModule dm = false /\ verifyModule sm = false /\
       fst (linkModules dm (CloneModule sm)) = false
       \/
       r = 0 /\ (verifyModule dm = true \/ verifyModule sm = true \/
                 fst (linkModules dm (CloneModule sm)) = true)) /\
      refs s' = refs s /\
      errs s' = errs s /\
      (forall a' : positive, a' <> ad -> mods s' !! a' = mods s !! a') /\
      HLC_ModulePrint Src s' = Returns (HLC_CreateString (c_str (Module_print sm))) s'.
Proof.
  intros Dst Src ad as_ dm sm s HDst HSrc Had Has Hdistinct.
  assert (Hprint : forall s' : State,
             refs s' = refs s -> mods s' !! as_ = Some sm ->
             HLC_ModulePrint Src s' =
               Returns (HLC_CreateString (c_str (Module_print sm))) s').
  { intros s' Hr Hm. unfold HLC_ModulePrint, ModuleRef_to_string, this_ModuleRef,
      deref, bind, ret. rewrite Hr, HSrc; simpl. now rewrite Hm. }
  rewrite (HLC_ModuleLinkIn_run _ _ _ _ _ _ _ HDst HSrc Had Has).
  destruct (verifyModule dm) eqn:Hd; [|destruct (verifyModule sm) eqn:Hs]; simpl.
  - exists 0, s. repeat split; auto.
  - exists 0, s. repeat split; auto.
  - destruct (fst (linkModules dm (CloneModule sm))) eqn:Hl;
      eexists; eexists; (split; [reflexivity|]); simpl;
      (split; [auto 10|]);
      (split; [reflexivity|]); (split; [reflexivity|]);
      (split; [intros a' Ha'; now apply lookup_insert_ne|]);
      apply Hprint; simpl; [reflexivity|now rewrite lookup_insert_ne
                           |reflexivity|now rewrite lookup_insert_ne].
Qed.



(** *** Text handed across the boundary *)

Lemma c_str_no_NUL (s : string) : has_NUL (c_str s) = false.
Proof.
  induction s as [|c r IH]; simpl; [reflexivity|].
  destruct (Ascii.eqb c zero) eqn:E; simpl; [reflexivity|]. now rewrite E.
Qed.

Lemma c_str_prefix (s : string) : String.prefix (c_str s) s = true.
Proof.
  induction s as [|c r IH]; simpl; [reflexivity|].
  destruct (Ascii.eqb c zero); simpl; [reflexivity|].
  destruct (ascii_dec c c); [exact IH|congruence].
Qed.

Lemma c_str_whole (s : string) : has_NUL s = false -> c_str s = s.
Proof.
  induction s as [|c r IH]; simpl; [reflexivity|].
  destruct (Ascii.eqb c zero); simpl; [discriminate|].
  intros Hr. now rewrite IH.
Qed.

Lemma c_str_cut (s1 s2 : string) :
  has_NUL s1 = false -> c_str (s1 +:+ String zero s2) = s1.
Proof.
  induction s1 as [|c r IH]; simpl; [reflexivity|].
  destruct (Ascii.eqb c zero); simpl; [discriminate|].
  intros Hr. now rewrite IH.
Qed.

(** X17: [HLC_ModulePrint] changes nothing in the store and hands out the
    printed module as a C string: the text up to, and without, the first
    NUL of what the printer wrote.  It is the whole text exactly when the
    printer wrote no NUL. *)
Theorem HLC_ModulePrint_text :
  forall (Mh a : positive) (m : IRModule) (s : State),
    refs s !! Mh = Some (mkModuleRef (Some a)) ->
    mods s !! a = Some m ->
    exists text : string,
      HLC_ModulePrint Mh s = Returns text s /\
      has_NUL text = false /\
      String.prefix text (Module_print m) = true /\
      (has_NUL (Module_print m) = false -> text = Module_print m) /\
      (forall before after : string,
          has_NUL before = false ->
          Module_print m = before +:+ String zero after ->
          text = before).
Proof.
  intros Mh a m s Hh Ha. exists (c_str (Module_print m)).
  split; [|split; [|split; [|split]]].
  - unfold HLC_ModulePrint, ModuleRef_to_string, this_ModuleRef, deref, bind, ret.
    rewrite Hh; simpl. now rewrite Ha.
  - apply c_str_no_NUL.
  - apply c_str_prefix.
  - apply c_str_whole.
  - intros before after Hb ->. now apply c_str_cut.
Qed.

End Coverage.

(** ** The theorems at concrete inputs *)

Section Instances.

Let L := Mini.llvm true false.
Let R := Mini.runner true false.
Let L0 := Mini.llvm false false.
Let R0 := Mini.runner false false.

(** Levels 0, 4 and -5 all give [CodeGenOpt_None]. *)
Lemma GetCodeGenOptLevel_table_witness :
  GetCodeGenOptLevel 0 = CodeGenOpt_None /\
  GetCodeGenOptLevel 4 = CodeGenOpt_None /\
  GetCodeGenOptLevel (-5) = CodeGenOpt_None.
Proof.
  destruct GetCodeGenOptLevel_table as (_ & _ & _ & H).
  repeat split; apply H; lia.
Defined.

(** Level 7 with size level -4 is not rejected: the call optimises and
    returns 1. *)
Lemma HLC_ModuleOptimize_range_check_witness :
  exists (r : Z) (s' : State),
    @HLC_ModuleOptimize L R Globals_initial Mini.zeroed 1 7 (-4) 0
      (Mini.state true false Mini.good) = Returns r s' /\ r = 1.
Proof.
  eexists; eexists. split; [vm_compute; reflexivity|].
  destruct (@HLC_ModuleOptimize_range_check_never_fires L R Globals_initial
              Mini.zeroed 1%positive 7 (-4) 0) as (_ & _ & _ & H).
  eapply (H (Mini.state true false Mini.good)). vm_compute; reflexivity.
Defined.

(** A broken module at level 3: the process exits with status 1. *)
Lemma Optimize_broken_input_exits_witness :
  exists s' : State,
    @HLC_ModuleOptimize L R Globals_initial Mini.zeroed 1 3 0 0
      (Mini.state true false Mini.bad) = Exits 1 s' /\
    errs s' = "broken moduleerror: input module is broken!" +:+ newline.
Proof.
  destruct (@Optimize_broken_input_exits L R Globals_initial Mini.zeroed
              1%positive 2%positive Mini.bad 3 0 0 (Mini.state true false Mini.bad))
    as [_ H]; [reflexivity|reflexivity|reflexivity|].
  eexists. split; [exact H|reflexivity].
Defined.

(** No target registered: the assembly emitter reports success with an
    empty text, the object emitter sets an empty block. *)
Lemma emit_unresolved_target_not_reported_witness :
  @lookupTarget L0 MArch (@Triple_normalize L0 "amdgcn--amdhsa") =
    inr "no available target" /\
  (exists s' : State,
      @HLC_ModuleEmitHSAIL L0 R0 1 0 (Mini.state false false Mini.good) =
        Returns (1, Some EmptyString) s') /\
  (exists s' : State,
      @HLC_ModuleEmitBRIG L0 R0 1 0 (Mini.state false false Mini.good) =
        Returns (0, Some EmptyString) s').
Proof.
  split; [reflexivity|].
  destruct (@emit_unresolved_target_not_reported L0 R0 1%positive 2%positive
              Mini.good 0 "no available target" (Mini.state false false Mini.good))
    as [Hasm Hobj]; [reflexivity|reflexivity|reflexivity|].
  split; eexists; [exact Hasm|exact Hobj].
Defined.

(** A broken source: the link fails and the store is the one before the
    call.  Two sound modules: the functions of the source are appended to
    the destination. *)
Lemma HLC_ModuleLinkIn_verifies_first_witness :
  @HLC_ModuleLinkIn L 1 2 (Mini.state2 true false Mini.good Mini.bad) =
    Returns 0 (Mini.state2 true false Mini.good Mini.bad) /\
  exists s' : State,
    @HLC_ModuleLinkIn L 1 2 (Mini.state2 true false Mini.good Mini.good) =
      Returns 1 s' /\
    Mini.ir_functions <$> (mods s' !! 3%positive) = Some ["f"; "g"; "f"; "g"].
Proof.
  split.
  - destruct (@HLC_ModuleLinkIn_verifies_first L 1%positive 2%positive
                3%positive 4%positive Mini.good Mini.bad
                (Mini.state2 true false Mini.good Mini.bad))
      as [H _]; [reflexivity|reflexivity|reflexivity|reflexivity|].
    apply H. right. reflexivity.
  - destruct (@HLC_ModuleLinkIn_verifies_first L 1%positive 2%positive
                3%positive 4%positive Mini.good Mini.good
                (Mini.state2 true false Mini.good Mini.good))
      as [_ H]; [reflexivity|reflexivity|reflexivity|reflexivity|].
    eexists. split; [apply H; reflexivity|]. vm_compute. reflexivity.
Defined.

(** Both emitters on a sound module: the store afterwards is the store
    before. *)
Lemma emit_does_not_mutate_input_witness :
  (exists (r : Z * option string) (s' : State),
      @HLC_ModuleEmitHSAIL L R 1 2 (Mini.state true false Mini.good) = Returns r s' /\
      mods s' = mods (Mini.state true false Mini.good) /\
      @HLC_ModulePrint L 1 s' = Returns "f,g" s') /\
  (exists (r : Z * option string) (s' : State),
      @HLC_ModuleEmitBRIG L R 1 2 (Mini.state true false Mini.good) = Returns r s' /\
      mods s' = mods (Mini.state true false Mini.good) /\
      @HLC_ModulePrint L 1 s' = Returns "f,g" s').
Proof.
  split.
  - destruct (@emit_does_not_mutate_input L R 1%positive 2%positive Mini.good 2
                false (Mini.state true false Mini.good)) as [_ H];
      [reflexivity|reflexivity|].
    cbv iota in H.
    destruct (@HLC_ModuleEmitHSAIL L R 1 2 (Mini.state true false Mini.good))
      as [r s'| | |] eqn:E; try discriminate E.
    exists r, s'. destruct H as (_ & Hm & Hp). auto.
  - destruct (@emit_does_not_mutate_input L R 1%positive 2%positive Mini.good 2
                true (Mini.state true false Mini.good)) as [_ H];
      [reflexivity|reflexivity|].
    cbv iota in H.
    destruct (@HLC_ModuleEmitBRIG L R 1 2 (Mini.state true false Mini.good))
      as [r s'| | |] eqn:E; try discriminate E.
    exists r, s'. destruct H as (_ & Hm & Hp). auto.
Defined.

(** After [ModuleRef::destroy] the handle tests false; after
    [HLC_ModuleDestroy] nothing is left in the store. *)
Lemma destroy_releases_module_then_handle_witness :
  (exists s1 : State,
      @ModuleRef_destroy L 1 (Mini.state true false Mini.good) = Returns tt s1 /\
      @ModuleRef_bool L 1 s1 = Returns false s1) /\
  @HLC_ModuleDestroy L 1 (Mini.state true false Mini.good) =
    Returns tt {| refs := ∅; mods := ∅; errs := "" |}.
Proof.
  destruct (@destroy_releases_module_then_handle L 1%positive 2%positive
              Mini.good (Mini.state true false Mini.good))
    as [(_ & Hd & _ & Hb & _) (Hd2 & _)]; [reflexivity|reflexivity|].
  split; [eexists; split; [exact Hd|exact Hb]|].
  rewrite Hd2. vm_compute. reflexivity.
Defined.

(** C9 at a concrete handle: after [HLC_ModuleDestroy] the handle is gone
    from the store, and its boolean conversion does not evaluate to false:
    it reads an object that is no longer alive. *)
Lemma HLC_ModuleDestroy_handle_dangles :
  let s' := {| refs := ∅; mods := ∅; errs := "" |} in
  @HLC_ModuleDestroy L 1 (Mini.state true false Mini.good) = Returns tt s' /\
  @ModuleRef_bool L 1 s' <> Returns false s' /\
  @ModuleRef_bool L 1 s' = Undefined /\
  @ModuleRef_getModule L 1 s' = Undefined /\
  @HLC_ModuleDestroy L 1 s' = Undefined.
Proof.
  cbv zeta. repeat split; try (vm_compute; reflexivity).
  vm_compute. discriminate.
Defined.

(** Level 2 with the initial switches: both vectorisations are on. *)
Lemma Optimize_vectorization_by_level_witness :
  let Builder := @AddOptimizationPasses_Builder L Globals_initial 2 0 in
  In (populateModulePassManager Builder)
     (fst (@Optimize_Passes L Globals_initial Mini.zeroed "amdgcn--amdhsa"
             (Some CodeGenOpt_Default) 2 1 0)) /\
  PMB_SLPVectorize Builder = true /\
  PMB_LoopVectorize Builder = true.
Proof.
  destruct (@Optimize_vectorization_by_level L Globals_initial Mini.zeroed
              "amdgcn--amdhsa" (Some CodeGenOpt_Default) 2 1 0)
    as (Hin & _ & _ & Hslp & Hloop & _); [right; left; reflexivity|].
  split; [exact Hin|]. split; [exact Hslp|exact Hloop].
Defined.

(** C3 at optLevel 2, sizeLevel 2, no switch set, nothing forced on: the
    one per-level bundle of the call has loop and SLP vectorisation on,
    although "optLevel > 1 and sizeLevel < 2" is false. *)
Lemma Optimize_size_level_2_vectorizes :
  let Builder := @AddOptimizationPasses_Builder L Globals_initial 2 0 in
  fst (@Optimize_Passes L Globals_initial Mini.zeroed "amdgcn--amdhsa"
         (Some CodeGenOpt_Default) 2 2 0) =
    [TargetLibraryInfoWrapperPass "amdgcn--amdhsa" true;
     createTargetTransformInfoWrapperPass (@getTargetIRAnalysis L CodeGenOpt_Default);
     populateLTOPassManager (@AddStandardLinkPasses_Builder L Globals_initial);
     populateModulePassManager Builder] /\
  PMB_LoopVectorize Builder = true /\
  PMB_SLPVectorize Builder = true /\
  PMB_LoopVectorize Builder <> ((1 <? 2) && (2 <? 2)) /\
  PMB_SLPVectorize Builder <> ((1 <? 2) && (2 <? 2)) /\
  DisableLoopVectorization Globals_initial = false /\
  DisableSLPVectorization Globals_initial = false /\
  PMB_LoopVectorize (@PassManagerBuilder_new L) = false.
Proof.
  cbv zeta. repeat split; try reflexivity; vm_compute; discriminate.
Defined.

(** C5 at level 0 when the unassigned [StandardLinkOpts] and [OptLevelO3]
    read as true: the link-time bundle and the level-3 bundle are built. *)
Lemma Optimize_level0_runs_bundles :
  fst (@Optimize_Passes L Globals_initial (mkIndeterminate false false true true)
         "amdgcn--amdhsa" (Some CodeGenOpt_None) 0 0 0) =
    [TargetLibraryInfoWrapperPass "amdgcn--amdhsa" true;
     createTargetTransformInfoWrapperPass (@getTargetIRAnalysis L CodeGenOpt_None);
     populateLTOPassManager (@AddStandardLinkPasses_Builder L Globals_initial);
     populateModulePassManager (@AddOptimizationPasses_Builder L Globals_initial 3 0)] /\
  fst (@Optimize_Passes L Globals_initial Mini.zeroed
         "amdgcn--amdhsa" (Some CodeGenOpt_None) 0 0 0) =
    [TargetLibraryInfoWrapperPass "amdgcn--amdhsa" true;
     createTargetTransformInfoWrapperPass (@getTargetIRAnalysis L CodeGenOpt_None)].
Proof. split; reflexivity. Defined.

End Instances.

(** ** The further properties at concrete inputs *)

Section CoverageInstances.

Let L := Mini.llvm true false.
Let R := Mini.runner true false.
Let P := Mini.parser true false.
Let T := Mini.llvm_text_only.
Let RT := Mini.runner_text_only.
Let rt1 : @Runtime L P := @Initialize L P (@Runtime_initial L P).
Let s0 : @State L := Mini.state true false Mini.good.

(** Reading "h" next to the module of [s0]: the new handle is 2, its module
    sits at 1, and it prints "h". *)
Lemma HLC_ParseModule_new_handle_witness :
  exists s' : @State L,
    @HLC_ParseModule L P rt1 "h" s0 = Returns (Some 2%positive) s' /\
    @HLC_ModulePrint L 2 s' = Returns "h" s' /\
    @HLC_ModulePrint L 1 s' = Returns "f,g" s'.
Proof.
  destruct (@HLC_ParseModule_new_handle L P rt1 tt "h"
              (Mini.mk_ir false "" "" ["h"] true) s0)
    as (Hparse & _ & _ & _ & _ & _ & Hprint); [reflexivity|reflexivity|].
  eexists. split; [exact Hparse|]. split; [exact Hprint|].
  vm_compute. reflexivity.
Defined.

(** Read and destroy, for a text that parses, and for a buffer of which
    the first three bytes are bitcode. *)
Lemma parse_then_destroy_restores_store_witness :
  bind (@HLC_ParseModule L P rt1 "h") (@destroy_parsed L) s0 = Returns tt s0 /\
  bind (@HLC_ParseBitcode L P rt1 "BChh" 3) (fun r => @destroy_parsed L (fst r)) s0 =
    Returns tt s0.
Proof.
  apply (@parse_then_destroy_restores_store L P rt1 tt "BChh" 3 s0).
  - reflexivity.
  - simpl. lia.
Defined.

(** A buffer without the signature: the null handle and one line on the
    standard output. *)
Lemma HLC_ParseBitcode_decode_error_witness :
  @HLC_ParseBitcode L P rt1 "XYZ" 2 s0 =
    Returns (None, "Invalid bitcode signature" +:+ newline) s0.
Proof.
  apply (@HLC_ParseBitcode_decode_error L P rt1 tt "XYZ"
           "Invalid bitcode signature" 2 s0).
  - reflexivity.
  - simpl. lia.
  - reflexivity.
Defined.

(** Three bytes of bitcode followed by two more that are not read. *)
Lemma HLC_ParseBitcode_reads_Len_bytes_witness :
  @HLC_ParseBitcode L P rt1 ("BCh" +:+ "zz") 3 s0 =
  @HLC_ParseBitcode L P rt1 "BCh" 3 s0.
Proof.
  apply (@HLC_ParseBitcode_reads_Len_bytes L P rt1 "BCh" "zz" 3 s0).
  simpl. lia.
Defined.


(** A machine that emits text only, asked for an object file. *)
Lemma emit_unsupported_file_type_witness :
  exists s' : @State T,
    @HLC_ModuleEmitBRIG T RT 1 2 (Mini.state_text_only Mini.good) =
      Returns (0, None) s' /\
    mods s' = mods (Mini.state_text_only Mini.good) /\
    errs s' = "target does not support generation of this file type!" +:+ newline.
Proof.
  eexists. split.
  - apply (@emit_unsupported_file_type T RT 1%positive 2%positive Mini.good 2
             true tt CodeGenOpt_Default (Mini.state_text_only Mini.good));
      reflexivity.
  - split; reflexivity.
Defined.

(** Code with a NUL in it: the text emitter cuts at the NUL, the object
    emitter hands out all three bytes. *)
Lemma emit_success_witness :
  @HLC_ModuleEmitHSAIL L R 1 2 (Mini.state true false Mini.with_NUL) =
    Returns (1, Some "f") (Mini.state true false Mini.with_NUL) /\
  @HLC_ModuleEmitBRIG L R 1 2 (Mini.state true false Mini.with_NUL) =
    Returns (3, Some (String "f" (String zero "g")))
      (Mini.state true false Mini.with_NUL).
Proof.
  split.
  - apply (@emit_success L R 1%positive 2%positive Mini.with_NUL 2 false tt
             CodeGenOpt_Default (Mini.state true false Mini.with_NUL));
      reflexivity.
  - apply (@emit_success L R 1%positive 2%positive Mini.with_NUL 2 true tt
             CodeGenOpt_Default (Mini.state true false Mini.with_NUL));
      reflexivity.
Defined.

(** Level 2 inside the range, level 7 outside. *)
Lemma CompileModule_OLvl_vs_GetCodeGenOptLevel_witness :
  CompileModule_OLvl 2 = GetCodeGenOptLevel 2 /\
  CompileModule_OLvl 7 = CodeGenOpt_Default /\
  GetCodeGenOptLevel 7 = CodeGenOpt_None.
Proof.
  destruct (CompileModule_OLvl_vs_GetCodeGenOptLevel 2) as [Hin _].
  destruct (CompileModule_OLvl_vs_GetCodeGenOptLevel 7) as [_ Hout].
  split; [apply Hin; lia|apply Hout; lia].
Defined.

(** A sound module at level 3. *)
Lemma HLC_ModuleOptimize_succeeds_witness :
  exists s' : @State L,
    @HLC_ModuleOptimize L R Globals_initial Mini.zeroed 1 3 0 0 s0 = Returns 1 s' /\
    refs s' = refs s0 /\ errs s' = errs s0.
Proof.
  eexists. split.
  - apply (@HLC_ModuleOptimize_succeeds L R Globals_initial Mini.zeroed
             1%positive 2%positive Mini.good 3 0 0 s0); reflexivity.
  - split; reflexivity.
Defined.

(** After [HLC_ModuleDestroy] the store of [s0] is empty and handle 1 is
    gone. *)
Lemma destroyed_handle_is_never_checked_witness :
  let s' : @State L := {| refs := ∅; mods := ∅; errs := "" |} in
  @HLC_ModuleDestroy L 1 s0 = Returns tt s' /\
  @HLC_ModuleOptimize L R Globals_initial Mini.zeroed 1 2 0 0 s' = Undefined /\
  @HLC_ModulePrint L 1 s' = Undefined /\
  @HLC_ModuleEmitHSAIL L R 1 2 s' = Undefined.
Proof.
  cbv zeta. split; [vm_compute; reflexivity|].
  destruct (@destroyed_handle_is_never_checked L R Globals_initial Mini.zeroed
              1%positive 1%positive 2 0 0 {| refs := ∅; mods := ∅; errs := "" |})
    as (Ho & Hp & Ha & _); [left; reflexivity|].
  split; [exact Ho|]. split; [exact Hp|exact Ha].
Defined.

(** The per-level bundle of level 2. *)
Lemma Optimize_Passes_invariants_witness :
  let Builder := @AddOptimizationPasses_Builder L Globals_initial 2 0 in
  PMB_OptLevel Builder = 2 /\
  PMB_SizeLevel Builder = 0 /\
  PMB_DisableUnrollLoops Builder = false.
Proof.
  cbv zeta.
  destruct (@Optimize_Passes_invariants L Globals_initial Mini.zeroed
              "amdgcn--amdhsa" None 2 1 0) as [_ H].
  destruct (H (@AddOptimizationPasses_Builder L Globals_initial 2 0))
    as ([H1 | [H2 | H3]] & Hs & Hu).
  - left. vm_compute. auto 10.
  - discriminate H1.
  - auto.
  - discriminate H3.
Defined.

(** Level 7 and level -2. *)
Lemma Optimize_Passes_dispatch_witness :
  fst (@Optimize_Passes L Globals_initial Mini.zeroed "amdgcn--amdhsa" None 7 0 0) =
    [TargetLibraryInfoWrapperPass "amdgcn--amdhsa" true;
     createTargetTransformInfoWrapperPass (@TargetIRAnalysis_default L);
     populateLTOPassManager (@AddStandardLinkPasses_Builder L Globals_initial)] /\
  fst (@Optimize_Passes L Globals_initial Mini.zeroed "amdgcn--amdhsa" None (-2) 0 0) =
    [TargetLibraryInfoWrapperPass "amdgcn--amdhsa" true;
     createTargetTransformInfoWrapperPass (@TargetIRAnalysis_default L)].
Proof.
  destruct (@Optimize_Passes_dispatch L Globals_initial "amdgcn--amdhsa" None 7 0 0)
    as (_ & _ & Habove).
  destruct (@Optimize_Passes_dispatch L Globals_initial "amdgcn--amdhsa" None (-2) 0 0)
    as (Hbelow & _ & _).
  split; [apply Habove; lia|apply Hbelow; lia].
Defined.

(** Level 1 with every unassigned flag reading as true. *)
Lemma Optimize_link_bundle_first_witness :
  exists rest : list (@Pass L),
    fst (@Optimize_Passes L Globals_initial (mkIndeterminate true true true true)
           "amdgcn--amdhsa" None 1 0 0) =
      TargetLibraryInfoWrapperPass "amdgcn--amdhsa" true
      :: createTargetTransformInfoWrapperPass (@TargetIRAnalysis_default L)
      :: populateLTOPassManager (@AddStandardLinkPasses_Builder L Globals_initial)
      :: rest.
Proof.
  destruct (@Optimize_link_bundle_first L Globals_initial
              (mkIndeterminate true true true true) "amdgcn--amdhsa" None 1 0 0)
    as (_ & rest & Hrest & _); [lia|].
  exists rest. exact Hrest.
Defined.

(** Two sound modules: the link returns 1 and the source still prints
    "f,g". *)
Lemma HLC_ModuleLinkIn_source_untouched_witness :
  exists (r : Z) (s' : @State L),
    @HLC_ModuleLinkIn L 1 2 (Mini.state2 true false Mini.good Mini.good) =
      Returns r s' /\
    @HLC_ModulePrint L 2 s' = Returns "f,g" s'.
Proof.
  destruct (@HLC_ModuleLinkIn_source_untouched L 1%positive 2%positive
              3%positive 4%positive Mini.good Mini.good
              (Mini.state2 true false Mini.good Mini.good))
    as (r & s' & Hrun & _ & _ & _ & _ & Hprint);
    [reflexivity|reflexivity|reflexivity|reflexivity|discriminate|].
  exists r, s'. split; [exact Hrun|exact Hprint].
Defined.


(** A printed text with a NUL after its first character. *)
Lemma HLC_ModulePrint_text_witness :
  exists text : string,
    @HLC_ModulePrint L 1 (Mini.state true false Mini.with_NUL) =
      Returns text (Mini.state true false Mini.with_NUL) /\
    text = "f".
Proof.
  destruct (@HLC_ModulePrint_text L 1%positive 2%positive Mini.with_NUL
              (Mini.state true false Mini.with_NUL))
    as (text & Hrun & _ & _ & _ & Hcut); [reflexivity|reflexivity|].
  exists text. split; [exact Hrun|].
  apply (Hcut "f" "g"); reflexivity.
Defined.

End CoverageInstances.
